(** * node-adb-client: the connection state machine and USB discovery of adb.js

    A shallow embedding of [src/adb.js] (class [ADB]) together with the part of
    [lib/adb-device.js] that the unit tests of [src/test/unit/adb-device-specs.js]
    exercise.  JavaScript objects become records, [await]ed calls on the device
    become explicit state passing over a device type, exceptions become the
    [Throw] completion, and the [while (1)] loop of [connect] is a step
    function iterated under a fuel bound. *)

From Stdlib Require Import ZArith List String Ascii Bool Lia.
Import ListNotations.
Open Scope Z_scope.

Set Implicit Arguments.

(** ** JavaScript values the code inspects *)

(** A thrown value.  [connect] reads its [errno] property ([e.errno === 2]);
    an [Error] built with [new Error(msg)] has no [errno]. *)
Record JsError := mkJsError {
  errno : option Z;
  message : string
}.

(** [new Error(msg)] *)
Definition Error (msg : string) : JsError :=
  {| errno := None; message := msg |}.

(** The [TypeError] raised by a property access on [undefined] or [null]. *)
Definition TypeError (msg : string) : JsError :=
  {| errno := None; message := msg |}.

(** The outcome of evaluating an expression or awaiting a promise. *)
Inductive Completion (A : Type) : Type :=
| Normal (a : A)
| Throw (e : JsError).
Arguments Normal {A} a.
Arguments Throw {A} e.

(** [e.errno === 2]: the libusb transfer status for a timed-out transfer. *)
Definition LIBUSB_TRANSFER_TIMED_OUT : Z := 2.

Definition is_timeout (e : JsError) : bool :=
  match errno e with
  | Some n => n =? LIBUSB_TRANSFER_TIMED_OUT
  | None => false
  end.

(** Byte buffers and JS strings used as payloads. *)
Definition Bytes := string.
Bind Scope string_scope with Bytes.

(** A decoded ADB packet, as the device layer hands it to [connect]. *)
Record Packet := mkPacket {
  command : Z;
  arg0 : Z;
  arg1 : Z;
  data : Bytes
}.

(** ** adb.js: connection states (lines 7-11) *)

Definition NOT_CONNECTED : Z := 0.
Definition WAIT_FOR_AUTH : Z := 1.
Definition SEND_PRIVATE_KEY : Z := 2.
Definition SEND_PUBLIC_KEY : Z := 3.
Definition CONNECTED : Z := 4.

(** The state values the [default:] branch of [connect] catches. *)
Definition unrecognised (s : Z) : Prop :=
  s <> NOT_CONNECTED /\ s <> WAIT_FOR_AUTH /\ s <> SEND_PRIVATE_KEY /\
  s <> SEND_PUBLIC_KEY /\ s <> CONNECTED.

(** The JavaScript values that flow through the local variable [packet] of
    [connect]: [undefined] until [waitForAuth] has answered, then whatever it
    resolved to ([false] or a packet). *)
Inductive PacketVar :=
| pv_undefined
| pv_false
| pv_packet (p : Packet).

(** ** The device object [this.device]

    [ADBDevice] lives in [lib/adb-device.js]; [ADB] only calls its methods.
    Each method is an effect on the device (of type [D]) that either resolves
    to a value or rejects with an error. *)

Class ADBHandshake (D : Type) := {
  initConnection : D -> Completion unit * D;
  waitForAuth : D -> Completion PacketVar * D;
  (** the argument is [packet.data], [undefined] when [packet] is [false] *)
  sendSignedToken : option Bytes -> D -> Completion bool * D;
  sendPublicKey : D -> Completion bool * D
}.

Class ADBSession (D Cmd Out : Type) := {
  open : Cmd -> D -> Completion Out * D;
  dev_closeConnection : D -> Completion unit * D
}.

(** The calls [ADB] makes on its device, in order: the observable behaviour
    of a method of [ADB]. *)
Inductive DeviceCall (Cmd : Type) :=
| call_initConnection
| call_waitForAuth
| call_sendSignedToken (token : option Bytes)
| call_sendPublicKey
| call_open (c : Cmd)
| call_closeConnection.
Arguments call_initConnection {Cmd}.
Arguments call_waitForAuth {Cmd}.
Arguments call_sendSignedToken {Cmd} token.
Arguments call_sendPublicKey {Cmd}.
Arguments call_open {Cmd} c.
Arguments call_closeConnection {Cmd}.

(** ** class ADB *)

Section ADB.
Context {D Cmd Out : Type}.
Context {handshake : ADBHandshake D} {session : ADBSession D Cmd Out}.

(** The fields of an [ADB] instance. *)
Record ADB := mkADB {
  state : Z;
  device : D
}.

Definition set_state (s : Z) (a : ADB) : ADB :=
  {| state := s; device := device a |}.

Definition set_device (d : D) (a : ADB) : ADB :=
  {| state := state a; device := d |}.

(** One turn of the [while (1)] loop of [connect]: the loop goes round
    again, [connect] returns, or an exception leaves [connect]. *)
Inductive Step :=
| Continue (pkt : PacketVar) (a : ADB)
| Return (a : ADB)
| Raise (e : JsError) (a : ADB).

Local Abbreviation Call := (DeviceCall Cmd).

(** [catch (e) { if (e.errno === 2) { this.state = NOT_CONNECTED; } else
    { throw e; } }], the handler shared by the three [try] blocks. *)
Definition on_error (pkt : PacketVar) (e : JsError) (a : ADB) : Step :=
  if is_timeout e then Continue pkt (set_state NOT_CONNECTED a)
  else Raise e a.

(** [packet.data] inside the [try] of SEND_PRIVATE_KEY. *)
Definition packet_data (pkt : PacketVar) : Completion (option Bytes) :=
  match pkt with
  | pv_undefined => Throw (TypeError "Cannot read property 'data' of undefined")
  | pv_false => Normal None
  | pv_packet p => Normal (Some (data p))
  end.

(** The body of the [switch (this.state)] (lines 99-162). *)
Definition connect_step (pkt : PacketVar) (a : ADB) : Step * list Call :=
  if state a =? NOT_CONNECTED then
    let (r, d) := initConnection (device a) in
    let a := set_device d a in
    match r with
    | Normal _ => (Continue pkt (set_state WAIT_FOR_AUTH a), [call_initConnection])
    | Throw e => (Raise e a, [call_initConnection])
    end
  else if state a =? WAIT_FOR_AUTH then
    let (r, d) := waitForAuth (device a) in
    let a := set_device d a in
    match r with
    | Normal pv_false =>
        (Continue pv_false (set_state NOT_CONNECTED a), [call_waitForAuth])
    | Normal pkt' =>
        (Continue pkt' (set_state SEND_PRIVATE_KEY a), [call_waitForAuth])
    | Throw e => (on_error pkt e a, [call_waitForAuth])
    end
  else if state a =? SEND_PRIVATE_KEY then
    match packet_data pkt with
    | Throw e => (on_error pkt e a, [])
    | Normal token =>
        let (r, d) := sendSignedToken token (device a) in
        let a := set_device d a in
        match r with
        | Normal true => (Continue pkt (set_state CONNECTED a), [call_sendSignedToken token])
        | Normal false => (Continue pkt (set_state SEND_PUBLIC_KEY a), [call_sendSignedToken token])
        | Throw e => (on_error pkt e a, [call_sendSignedToken token])
        end
    end
  else if state a =? SEND_PUBLIC_KEY then
    let (r, d) := sendPublicKey (device a) in
    let a := set_device d a in
    match r with
    | Normal true => (Continue pkt (set_state CONNECTED a), [call_sendPublicKey])
    | Normal false => (Continue pkt (set_state NOT_CONNECTED a), [call_sendPublicKey])
    | Throw e => (on_error pkt e a, [call_sendPublicKey])
    end
  else if state a =? CONNECTED then
    (Return a, [])
  else
    (Continue pkt (set_state NOT_CONNECTED a), []).

(** How a call of an [async] method of [ADB] ends; [Running] is a loop that
    has not finished within the fuel given. *)
Inductive Outcome :=
| Returned (a : ADB)
| Threw (e : JsError) (a : ADB)
| Running (pkt : PacketVar) (a : ADB).

(** [while (1) { switch ... }] *)
Fixpoint connect_loop (fuel : nat) (pkt : PacketVar) (a : ADB)
  : Outcome * list Call :=
  match fuel with
  | O => (Running pkt a, [])
  | S fuel' =>
      match connect_step pkt a with
      | (Continue pkt' a', calls) =>
          let (o, calls') := connect_loop fuel' pkt' a' in (o, calls ++ calls')
      | (Return a', calls) => (Returned a', calls)
      | (Raise e a', calls) => (Threw e a', calls)
      end
  end.

(** [async connect ()]: [let packet;] then the loop. *)
Definition connect (fuel : nat) (a : ADB) : Outcome * list Call :=
  connect_loop fuel pv_undefined a.

(** [async runCommand (command)] (lines 166-174). *)
Definition runCommand (c : Cmd) (a : ADB)
  : Completion Out * ADB * list Call :=
  if state a =? CONNECTED then
    let (r, d) := open c (device a) in
    (r, set_device d a, [call_open c])
  else
    (Throw (Error "State is not CONNECTED, cannot run a command."), a, []).

(** [async closeConnection ()] (lines 176-183). *)
Definition closeConnection (a : ADB) : Completion unit * ADB * list Call :=
  if state a =? CONNECTED then
    let (r, d) := dev_closeConnection (device a) in
    let a := set_device d a in
    match r with
    | Normal _ => (Normal tt, set_state NOT_CONNECTED a, [call_closeConnection])
    | Throw e => (Throw e, a, [call_closeConnection])
    end
  else
    (Normal tt, a, []).

End ADB.

Arguments ADB D : clear implicits.
Arguments Step D : clear implicits.
Arguments Outcome D : clear implicits.

(** ** A scripted device

    The stand-in for [this.device] used to run [ADB] on concrete exchanges, in
    the manner of the mocks of the unit tests: every method answers with the
    next outcome of its script.  A method whose script is used up rejects
    with the transport's timeout, as a device that has stopped answering
    does. *)

Module Mock.

Definition timeout_error : JsError :=
  {| errno := Some LIBUSB_TRANSFER_TIMED_OUT; message := "LIBUSB_TRANSFER_TIMED_OUT" |}.

Record Device := mkDevice {
  on_initConnection : list (Completion unit);
  on_waitForAuth : list (Completion PacketVar);
  on_sendSignedToken : list (Completion bool);
  on_sendPublicKey : list (Completion bool);
  on_open : list (Completion string);
  on_closeConnection : list (Completion unit)
}.

Definition next {A : Type} (script : list (Completion A))
  : Completion A * list (Completion A) :=
  match script with
  | [] => (Throw timeout_error, [])
  | r :: rest => (r, rest)
  end.

Definition do_initConnection (d : Device) : Completion unit * Device :=
  let (r, rest) := next (on_initConnection d) in
  (r, mkDevice rest (on_waitForAuth d) (on_sendSignedToken d)
        (on_sendPublicKey d) (on_open d) (on_closeConnection d)).

Definition do_waitForAuth (d : Device) : Completion PacketVar * Device :=
  let (r, rest) := next (on_waitForAuth d) in
  (r, mkDevice (on_initConnection d) rest (on_sendSignedToken d)
        (on_sendPublicKey d) (on_open d) (on_closeConnection d)).

Definition do_sendSignedToken (token : option Bytes) (d : Device)
  : Completion bool * Device :=
  let (r, rest) := next (on_sendSignedToken d) in
  (r, mkDevice (on_initConnection d) (on_waitForAuth d) rest
        (on_sendPublicKey d) (on_open d) (on_closeConnection d)).

Definition do_sendPublicKey (d : Device) : Completion bool * Device :=
  let (r, rest) := next (on_sendPublicKey d) in
  (r, mkDevice (on_initConnection d) (on_waitForAuth d) (on_sendSignedToken d)
        rest (on_open d) (on_closeConnection d)).

Definition do_open (c : string) (d : Device) : Completion string * Device :=
  let (r, rest) := next (on_open d) in
  (r, mkDevice (on_initConnection d) (on_waitForAuth d) (on_sendSignedToken d)
        (on_sendPublicKey d) rest (on_closeConnection d)).

Definition do_closeConnection (d : Device) : Completion unit * Device :=
  let (r, rest) := next (on_closeConnection d) in
  (r, mkDevice (on_initConnection d) (on_waitForAuth d) (on_sendSignedToken d)
        (on_sendPublicKey d) (on_open d) rest).

#[global] Instance handshake : ADBHandshake Device := {
  initConnection := do_initConnection;
  waitForAuth := do_waitForAuth;
  sendSignedToken := do_sendSignedToken;
  sendPublicKey := do_sendPublicKey
}.

#[global] Instance session : ADBSession Device string string := {
  open := do_open;
  dev_closeConnection := do_closeConnection
}.

(** A device that answers nothing at all. *)
Definition silent : Device := mkDevice [] [] [] [] [] [].

End Mock.

(** ** The transport under [ADBDevice]

    [ADBDevice] talks to [this.device] (a [USBDevice]) through [_sendMsg] and
    [_recvMsg]; the unit tests mock exactly these two methods. *)

Class Transport (T : Type) := {
  _sendMsg : Z -> Z -> Z -> Bytes -> T -> Completion unit * T;
  _recvMsg : Z -> T -> Completion Packet * T
}.

(** Awaited calls in sequence: a rejected promise leaves the [async] function
    at once, with the transport as it then is. *)
Definition Eff (T A : Type) : Type := T -> Completion A * T.

Definition ret {T A : Type} (a : A) : Eff T A := fun t => (Normal a, t).

Definition throw {T A : Type} (e : JsError) : Eff T A := fun t => (Throw e, t).

Definition bind {T A B : Type} (m : Eff T A) (k : A -> Eff T B) : Eff T B :=
  fun t =>
    match m t with
    | (Normal a, t') => k a t'
    | (Throw e, t') => (Throw e, t')
    end.

Declare Scope eff_scope.
Delimit Scope eff_scope with eff.
Notation "x <- m ;; k" := (bind m (fun x => k))
  (at level 61, m at next level, right associativity) : eff_scope.
Notation "m ;; k" := (bind m (fun _ => k))
  (at level 61, right associativity) : eff_scope.

(** The constants of [lib/constants.js], which is not among the sources. *)

Module ADB_COMMANDS.
(** Modelled from the spec: [ADB_COMMANDS.CMD_CNXN] (section 3, commands as
    ASCII little-endian 32-bit words). *)
Definition CMD_CNXN : Z := 0x4E584E43.
(** Modelled from the spec: [ADB_COMMANDS.CMD_AUTH] (section 3). *)
Definition CMD_AUTH : Z := 0x48545541.
(** Modelled from the spec: [ADB_COMMANDS.CMD_OPEN] (section 3). *)
Definition CMD_OPEN : Z := 0x4E45504F.
(** Modelled from the spec: [ADB_COMMANDS.CMD_OKAY] (section 3). *)
Definition CMD_OKAY : Z := 0x59414B4F.
(** Modelled from the spec: [ADB_COMMANDS.CMD_CLSE] (section 3). *)
Definition CMD_CLSE : Z := 0x45534C43.
(** Modelled from the spec: [ADB_COMMANDS.CMD_WRTE] (section 3). *)
Definition CMD_WRTE : Z := 0x45545257.
(** Modelled from the spec: [ADB_COMMANDS.CMD_SYNC] (section 3). *)
Definition CMD_SYNC : Z := 0x434E5953.
End ADB_COMMANDS.
Import ADB_COMMANDS.

Module CONNECT_VALUES.
(** Modelled from the spec: [CONNECT_VALUES.CONNECT_VERSION], the A_VERSION
    of section 3. *)
Definition CONNECT_VERSION : Z := 0x01000000.
(** Modelled from the spec: [CONNECT_VALUES.CONNECT_MAXDATA], the MAXDATA of
    section 3. *)
Definition CONNECT_MAXDATA : Z := 4096.
(** Modelled from the spec: [CONNECT_VALUES.CONNECT_PAYLOAD], the connect
    banner of section 6. *)
Definition CONNECT_PAYLOAD : Bytes := ("host::" ++ String zero EmptyString)%string.
End CONNECT_VALUES.
Import CONNECT_VALUES.

Module AUTH_TYPES.
(** Modelled from the spec: the AUTH sub-type TOKEN (section 3). *)
Definition TOKEN : Z := 1.
(** Modelled from the spec: the AUTH sub-type SIGNATURE (section 3). *)
Definition SIGNATURE : Z := 2.
(** Modelled from the spec: the AUTH sub-type RSAPUBLICKEY (section 3); the
    unit tests send the public key with the literal [3]. *)
Definition RSAPUBLICKEY : Z := 3.
End AUTH_TYPES.
Import AUTH_TYPES.

(** Byte [i] of a 32-bit word, as a character. *)
Definition command_byte (c : Z) (i : Z) : ascii :=
  ascii_of_N (Z.to_N (Z.land (Z.shiftr c (8 * i)) 255)).

(** Modelled from the spec: the command type an error message shows, absent
    from the sources with [lib/helpers.js]; by section 3 a command is the
    little-endian word of its four ASCII letters, which are its name. *)
Definition command_type (c : Z) : string :=
  String (command_byte c 0) (String (command_byte c 1)
  (String (command_byte c 2) (String (command_byte c 3) EmptyString))).

(** ** lib/adb-device.js: the methods the claims are about *)

Section ADBDevice.
Context {T : Type} {transport : Transport T}.

(** The KeyStore: [sign] signs a token with the private key, [public_key]
    is the ADB-format public key string. *)
Variable sign : Bytes -> Bytes.
Variable public_key : Bytes.

Local Open Scope eff_scope.

(** Modelled from the spec: [ADBDevice.initConnection], absent from the
    sources; section 4.4: send CNXN(A_VERSION, MAXDATA, "host::"). *)
Definition ADBDevice_initConnection : Eff T unit :=
  _sendMsg CMD_CNXN CONNECT_VERSION CONNECT_MAXDATA CONNECT_PAYLOAD.

(** Modelled from the spec: [ADBDevice.waitForAuth], absent from the
    sources; section 4.4: an AUTH(TOKEN, *, token) is handed to the state
    machine, anything else is answered with [false]. *)
Definition ADBDevice_waitForAuth : Eff T PacketVar :=
  packet <- _recvMsg CONNECT_MAXDATA ;;
  if (command packet =? CMD_AUTH) && (arg0 packet =? TOKEN)
  then ret (pv_packet packet)
  else ret pv_false.

(** Modelled from the spec: [ADBDevice.sendSignedToken], absent from the
    sources; section 4.4: send AUTH(SIGNATURE, 0, sign(token)), success is
    a CNXN in reply. *)
Definition ADBDevice_sendSignedToken (token : option Bytes) : Eff T bool :=
  match token with
  | None => throw (TypeError "token is undefined")
  | Some tok =>
      _sendMsg CMD_AUTH SIGNATURE 0 (sign tok) ;;
      packet <- _recvMsg CONNECT_MAXDATA ;;
      ret (command packet =? CMD_CNXN)
  end.

(** Modelled from the spec: [ADBDevice.sendPublicKey], absent from the
    sources; section 4.4 and the tests of lines 180-203: one
    [_sendMsg(CMD_AUTH, 3, 0, key)], one [_recvMsg(CONNECT_MAXDATA)], and
    the result is whether the reply is a CNXN. *)
Definition ADBDevice_sendPublicKey : Eff T bool :=
  _sendMsg CMD_AUTH RSAPUBLICKEY 0 (public_key ++ String zero EmptyString)%string ;;
  packet <- _recvMsg CONNECT_MAXDATA ;;
  ret (command packet =? CMD_CNXN).

(** Modelled from the spec: [ADBDevice.sendAndOkay], absent from the
    sources; section 4.5 and the tests of lines 40-67: one [_sendMsg] with
    the arguments given, one [_recvMsg(CONNECT_MAXDATA)], rejected with an
    error containing the command type unless the reply is an OKAY. *)
Definition sendAndOkay (cmd arg0 arg1 : Z) (payload : Bytes) : Eff T Packet :=
  _sendMsg cmd arg0 arg1 payload ;;
  packet <- _recvMsg CONNECT_MAXDATA ;;
  if negb (command packet =? CMD_OKAY)
  then throw (Error ("sendAndOkay did not receive OKAY, got: "
                       ++ command_type (command packet))%string)
  else ret packet.

(** Modelled from the spec: the [write] of section 4.5,
    WRTE(local_id, remote_id, payload) through [sendAndOkay]. *)
Definition write (localId remoteId : Z) (payload : Bytes) : Eff T Packet :=
  sendAndOkay CMD_WRTE localId remoteId payload.

(** Modelled from the spec: a caller writing one payload after the other on
    an open stream (section 4.7: the DATA frames of a push), each [write]
    awaited before the next. *)
Fixpoint writes (localId remoteId : Z) (payloads : list Bytes) : Eff T unit :=
  match payloads with
  | [] => ret tt
  | payload :: rest =>
      write localId remoteId payload ;;
      writes localId remoteId rest
  end.

(** The handshake methods as [ADB] sees them. *)
Definition ADBDevice_handshake : ADBHandshake T := {|
  initConnection := ADBDevice_initConnection;
  waitForAuth := ADBDevice_waitForAuth;
  sendSignedToken := ADBDevice_sendSignedToken;
  sendPublicKey := ADBDevice_sendPublicKey
|}.

End ADBDevice.

(** ** A scripted transport

    The stand-in for the [USBDevice] of the unit tests: [_recvMsg] answers
    with the next outcome of [rx] (a timeout once the script is used up),
    [_sendMsg] with the next outcome of [tx] (success once it is used up), and
    every exchange is appended to [log]. *)

Module Wire.

Inductive Event :=
| Sent (cmd arg0 arg1 : Z) (payload : Bytes)
| SendFailed (cmd arg0 arg1 : Z) (payload : Bytes)
| Received (p : Packet)
| RecvFailed (e : JsError).

Record t := mk {
  tx : list (Completion unit);
  rx : list (Completion Packet);
  log : list Event
}.

Definition send (cmd arg0 arg1 : Z) (payload : Bytes) (w : t)
  : Completion unit * t :=
  match tx w with
  | Throw e :: rest =>
      (Throw e, mk rest (rx w) (log w ++ [SendFailed cmd arg0 arg1 payload]))
  | Normal _ :: rest =>
      (Normal tt, mk rest (rx w) (log w ++ [Sent cmd arg0 arg1 payload]))
  | [] => (Normal tt, mk [] (rx w) (log w ++ [Sent cmd arg0 arg1 payload]))
  end.

Definition recv (maxdata : Z) (w : t) : Completion Packet * t :=
  match rx w with
  | Normal p :: rest => (Normal p, mk (tx w) rest (log w ++ [Received p]))
  | Throw e :: rest => (Throw e, mk (tx w) rest (log w ++ [RecvFailed e]))
  | [] => (Throw Mock.timeout_error,
           mk (tx w) [] (log w ++ [RecvFailed Mock.timeout_error]))
  end.

#[global] Instance transport : Transport t := {
  _sendMsg := send;
  _recvMsg := recv
}.

(** A transport on which the device will send the given packets. *)
Definition receiving (ps : list Packet) : t := mk [] (map Normal ps) [].

(** Flow control with a window of one, read off a log: no WRTE is sent
    while the OKAY of the WRTE before it is outstanding. *)
Fixpoint window_one (awaiting : bool) (l : list Event) : bool :=
  match l with
  | [] => true
  | Sent cmd _ _ _ :: rest =>
      if cmd =? CMD_WRTE
      then negb awaiting && window_one true rest
      else window_one awaiting rest
  | Received p :: rest =>
      if command p =? CMD_OKAY
      then window_one false rest
      else window_one awaiting rest
  | _ :: rest => window_one awaiting rest
  end.

(** Whether an OKAY is outstanding once the log has been read. *)
Fixpoint awaiting_after (awaiting : bool) (l : list Event) : bool :=
  match l with
  | [] => awaiting
  | Sent cmd _ _ _ :: rest =>
      if cmd =? CMD_WRTE
      then awaiting_after true rest
      else awaiting_after awaiting rest
  | Received p :: rest =>
      if command p =? CMD_OKAY
      then awaiting_after false rest
      else awaiting_after awaiting rest
  | _ :: rest => awaiting_after awaiting rest
  end.

(** The payloads of the WRTE messages sent, in order. *)
Definition wrte_sent (l : list Event) : list Bytes :=
  flat_map (fun ev =>
    match ev with
    | Sent cmd _ _ payload => if cmd =? CMD_WRTE then [payload] else []
    | _ => []
    end) l.

End Wire.

(** ** USB discovery: the static functions of [ADB] (lines 24-92) *)

Module Usb.

(** Devices as the [usb] package presents them. *)
Record InterfaceDescriptor := mkInterfaceDescriptor {
  bInterfaceClass : Z;
  bInterfaceSubClass : Z;
  bInterfaceProtocol : Z
}.

Inductive Direction := dir_in | dir_out.

Record Endpoint := mkEndpoint {
  direction : Direction;
  address : Z
}.

Record Interface := mkInterface {
  endpoints : list Endpoint;
  descriptor : InterfaceDescriptor
}.

Record DeviceDescriptor := mkDeviceDescriptor {
  idVendor : Z;
  iSerialNumber : Z
}.

Record ConfigDescriptor := mkConfigDescriptor {
  bNumInterfaces : Z
}.

(** A device object.  [None] stands for a property that is [null];
    [on_open] is what [device.open()] does and [controlTransfer] what the
    device answers to a control transfer once open. *)
Record Device := mkDevice {
  deviceDescriptor : option DeviceDescriptor;
  configDescriptor : option ConfigDescriptor;
  interfaces : option (list Interface);
  on_open : Completion unit;
  controlTransfer : Z -> Z -> Z -> Z -> Z -> Completion (list Byte.byte)
}.

(** The operations performed on USB devices, in order. *)
Inductive Call :=
| call_open (d : Device)
| call_controlTransfer (d : Device) (bmRequestType bRequest wValue wIndex len : Z)
| call_close (d : Device).

Definition called_on (c : Call) : Device :=
  match c with
  | call_open d => d
  | call_controlTransfer d _ _ _ _ _ => d
  | call_close d => d
  end.

(** The libusb constants the [usb] package exports. *)
Definition LIBUSB_ENDPOINT_IN : Z := 0x80.
Definition LIBUSB_REQUEST_GET_DESCRIPTOR : Z := 0x06.
Definition LIBUSB_DT_STRING : Z := 0x03.

(** [ADB_VALUES] of [lib/constants.js]; the values are those of section 4.1. *)

Module ADB_VALUES.
(** Modelled from the spec: [ADB_VALUES.ADB_CLASS], bInterfaceClass=0xFF. *)
Definition ADB_CLASS : Z := 0xFF.
(** Modelled from the spec: [ADB_VALUES.ADB_SUBCLASS], bInterfaceSubClass=0x42. *)
Definition ADB_SUBCLASS : Z := 0x42.
(** Modelled from the spec: [ADB_VALUES.ADB_PROTOCOL], bInterfaceProtocol=0x01. *)
Definition ADB_PROTOCOL : Z := 0x01.
End ADB_VALUES.
Import ADB_VALUES.

(** [ToInt32], and the 32-bit integer operators [<<] and [|] built on it. *)
Definition to_int32 (z : Z) : Z :=
  let m := z mod 2 ^ 32 in
  if m <? 2 ^ 31 then m else m - 2 ^ 32.

Definition js_shl (a b : Z) : Z := to_int32 (Z.shiftl (to_int32 a) (Z.land b 31)).

Definition js_or (a b : Z) : Z := to_int32 (Z.lor (to_int32 a) (to_int32 b)).

(** A JavaScript string: its UTF-16 code units. *)
Definition JsString := list Z.

(** [buffer.toString('utf16le', start)] *)
Fixpoint utf16le (bytes : list Byte.byte) : JsString :=
  match bytes with
  | lo :: hi :: rest =>
      (Z.of_N (Byte.to_N lo) + 256 * Z.of_N (Byte.to_N hi)) :: utf16le rest
  | _ => []
  end.

Definition toString_utf16le (start : nat) (buffer : list Byte.byte) : JsString :=
  utf16le (skipn start buffer).

(** [array.indexOf(x)] on an array of numbers. *)
Fixpoint indexOf_from (i : Z) (l : list Z) (x : Z) : Z :=
  match l with
  | [] => -1
  | y :: rest => if y =? x then i else indexOf_from (i + 1) rest x
  end.

Definition indexOf (l : list Z) (x : Z) : Z := indexOf_from 0 l x.

(** [static async _getSerialNo (device)] (lines 24-37). *)
Definition _getSerialNo (device : Device) : Completion JsString * list Call :=
  let langid := 0x0409 in
  let length := 255 in
  match on_open device with
  | Throw e => (Throw e, [call_open device])
  | Normal _ =>
      match deviceDescriptor device with
      | None =>
          (Throw (TypeError "Cannot read property 'iSerialNumber' of null"),
           [call_open device])
      | Some dd =>
          let wValue := js_or (js_shl LIBUSB_DT_STRING 8) (iSerialNumber dd) in
          let transfer :=
            call_controlTransfer device LIBUSB_ENDPOINT_IN
              LIBUSB_REQUEST_GET_DESCRIPTOR wValue langid length in
          match controlTransfer device LIBUSB_ENDPOINT_IN
                  LIBUSB_REQUEST_GET_DESCRIPTOR wValue langid length with
          | Throw e => (Throw e, [call_open device; transfer])
          | Normal serialNumber =>
              (Normal (toString_utf16le 2 serialNumber),
               [call_open device; transfer; call_close device])
          end
      end
  end.

(** The test applied to each interface by the loop of [_getAdbInterface]:
    neither [continue] is taken. *)
Definition is_adb_interface (iface : Interface) : bool :=
  if negb (Z.of_nat (List.length (endpoints iface)) =? 2) then false
  else if negb (bInterfaceClass (descriptor iface) =? ADB_CLASS)
          || negb (bInterfaceSubClass (descriptor iface) =? ADB_SUBCLASS)
          || negb (bInterfaceProtocol (descriptor iface) =? ADB_PROTOCOL)
  then false
  else true.

(** [for (let iface of interfaces) { ... returnInterface = iface; break; }] *)
Fixpoint search_interfaces (ifaces : list Interface) : option Interface :=
  match ifaces with
  | [] => None
  | iface :: rest =>
      if is_adb_interface iface then Some iface else search_interfaces rest
  end.

(** [static _getAdbInterface (device)] (lines 67-92); [None] is [null]. *)
Definition _getAdbInterface (device : Device)
  : Completion (option Interface) * list Call :=
  match on_open device with
  | Throw e => (Throw e, [call_open device])
  | Normal _ =>
      match interfaces device with
      | None => (Normal None, [call_open device])
      | Some ifaces =>
          match deviceDescriptor device, configDescriptor device with
          | Some _, Some _ => (Normal (search_interfaces ifaces), [call_open device])
          | _, _ => (Normal None, [call_open device])
          end
      end
  end.

(** An element of the array [findAdbDevices] returns. *)
Record AdbDevice := mkAdbDevice {
  device : Device;
  deviceInterface : Interface;
  serialNumber : JsString
}.

Section Discovery.
(** [USB_VENDOR_IDS] of [lib/constants.js], the vendor-id allow-list. *)
Variable USB_VENDOR_IDS : list Z.

(** [for (let device of usbDevices) { ... }] with [adbDevices] as it is
    when the loop reaches the devices left. *)
Fixpoint scan (usbDevices : list Device) (adbDevices : list AdbDevice)
  : Completion (list AdbDevice) * list Call :=
  match usbDevices with
  | [] => (Normal adbDevices, [])
  | device :: rest =>
      match deviceDescriptor device with
      | None => (Throw (TypeError "Cannot read property 'idVendor' of null"), [])
      | Some dd =>
          let vendorID := idVendor dd in
          if indexOf USB_VENDOR_IDS vendorID =? -1 then scan rest adbDevices
          else
            match _getAdbInterface device with
            | (Throw e, calls) => (Throw e, calls)
            | (Normal None, calls) =>
                let (r, calls') := scan rest adbDevices in (r, calls ++ calls')
            | (Normal (Some deviceInterface), calls) =>
                match _getSerialNo device with
                | (Throw e, calls1) => (Throw e, calls ++ calls1)
                | (Normal serialNumber, calls1) =>
                    let (r, calls') :=
                      scan rest
                        (adbDevices ++ [mkAdbDevice device deviceInterface serialNumber]) in
                    (r, calls ++ calls1 ++ calls')
                end
            end
      end
  end.

(** [static async findAdbDevices ()] (lines 40-63), on the list
    [usb.getDeviceList()] returns. *)
Definition findAdbDevices (usbDevices : list Device)
  : Completion (list AdbDevice) * list Call :=
  if Z.of_nat (List.length usbDevices) =? 0 then
    (Throw (Error "No USB devices found."), [])
  else
    match scan usbDevices [] with
    | (Throw e, calls) => (Throw e, calls)
    | (Normal adbDevices, calls) =>
        if Z.of_nat (List.length adbDevices) =? 0
        then (Throw (Error "No ADB devices found."), calls)
        else (Normal adbDevices, calls)
    end.

(** A device [findAdbDevices] is after: its vendor id is on the
    allow-list and one of its interfaces is an ADB interface. *)
Definition vendor_allowed (d : Device) : Prop :=
  exists dd, deviceDescriptor d = Some dd /\ In (idVendor dd) USB_VENDOR_IDS.

Definition exposes_adb_interface (d : Device) : Prop :=
  exists ifaces iface,
    interfaces d = Some ifaces /\ In iface ifaces /\ is_adb_interface iface = true.

End Discovery.

End Usb.

(** ** The constructor of [ADB] (lines 14-21)

    [CONNECTION_TYPES] and the constructor of [ADBDevice] belong to files that
    are not among the sources: the two connection types, their comparison by
    [===] and [new ADBDevice(connectionType, device)] are taken as given. *)

Section Constructor.
Context {D CT Dev : Type}.
Variable USB TCP : CT.
Variable same : CT -> CT -> bool.
Variable new_ADBDevice : CT -> Dev -> Completion D.

(** [constructor (connectionType, device)] *)
Definition new_ADB (connectionType : CT) (dev : Dev) : Completion (ADB D) :=
  if same connectionType USB || same connectionType TCP then
    match new_ADBDevice connectionType dev with
    | Normal d => Normal (mkADB NOT_CONNECTED d)
    | Throw e => Throw e
    end
  else Throw (Error "Cannot create new ADB device, invalid connection type.").

End Constructor.

(** ** The order of the calls of a handshake *)

Section CallOrder.
Context {Cmd : Type}.

(** [may_follow prev next]: the call [next] can come directly after [prev] in
    a handshake. *)
Definition may_follow (prev next : DeviceCall Cmd) : bool :=
  match prev, next with
  | call_initConnection, call_waitForAuth => true
  | call_waitForAuth, call_initConnection => true
  | call_waitForAuth, call_sendSignedToken _ => true
  | call_sendSignedToken _, call_initConnection => true
  | call_sendSignedToken _, call_sendPublicKey => true
  | call_sendPublicKey, call_initConnection => true
  | _, _ => false
  end.

Fixpoint ordered (prev : DeviceCall Cmd) (calls : list (DeviceCall Cmd)) : bool :=
  match calls with
  | [] => true
  | c :: rest => may_follow prev c && ordered c rest
  end.

Definition unrecognised_b (s : Z) : bool :=
  negb ((s =? NOT_CONNECTED) || (s =? WAIT_FOR_AUTH) || (s =? SEND_PRIVATE_KEY)
        || (s =? SEND_PUBLIC_KEY) || (s =? CONNECTED)).

(** The first call [connect] can make when entered in state [s]. *)
Definition expected_call (s : Z) (c : DeviceCall Cmd) : bool :=
  match c with
  | call_initConnection => (s =? NOT_CONNECTED) || unrecognised_b s
  | call_waitForAuth => s =? WAIT_FOR_AUTH
  | call_sendSignedToken _ => s =? SEND_PRIVATE_KEY
  | call_sendPublicKey => s =? SEND_PUBLIC_KEY
  | _ => false
  end.

(** A sequence of calls that [connect] can make when entered in state [s]. *)
Definition handshake_order (s : Z) (calls : list (DeviceCall Cmd)) : bool :=
  match calls with
  | [] => true
  | c :: rest => expected_call s c && ordered c rest
  end.

(** The states a turn can leave behind after the call [c]. *)
Definition left_by (c : DeviceCall Cmd) (s : Z) : bool :=
  match c with
  | call_initConnection => s =? WAIT_FOR_AUTH
  | call_waitForAuth => (s =? NOT_CONNECTED) || (s =? SEND_PRIVATE_KEY)
  | call_sendSignedToken _ =>
      (s =? CONNECTED) || (s =? SEND_PUBLIC_KEY) || (s =? NOT_CONNECTED)
  | call_sendPublicKey => (s =? CONNECTED) || (s =? NOT_CONNECTED)
  | _ => false
  end.

(** The calls whose answer can make the state CONNECTED. *)
Definition accepting (c : DeviceCall Cmd) : bool :=
  match c with
  | call_sendSignedToken _ | call_sendPublicKey => true
  | _ => false
  end.

(** The calls of the handshake, as opposed to those of a session. *)
Definition is_handshake_call (c : DeviceCall Cmd) : bool :=
  match c with
  | call_open _ | call_closeConnection => false
  | _ => true
  end.

End CallOrder.

(** ** USB string descriptors, for the serial number *)

(** The byte of value [z mod 256]. *)
Definition byte_of_Z (z : Z) : Byte.byte :=
  match Byte.of_N (Z.to_N (z mod 256)) with
  | Some b => b
  | None => Byte.x00
  end.

(** The UTF-16LE bytes of a string of code units. *)
Fixpoint utf16le_bytes (s : Usb.JsString) : list Byte.byte :=
  match s with
  | [] => []
  | u :: rest => byte_of_Z u :: byte_of_Z (u / 256) :: utf16le_bytes rest
  end.

(** A string descriptor as a device sends it: bLength, bDescriptorType (0x03),
    then the string in UTF-16LE. *)
Definition string_descriptor (s : Usb.JsString) : list Byte.byte :=
  byte_of_Z (2 + 2 * Z.of_nat (List.length s)) :: Byte.x03 :: utf16le_bytes s.


(** What [findAdbDevices] has established of an entry it returns: the device
    is one of those listed, its vendor id is allowed, and the interface and
    the serial number are what [_getAdbInterface] and [_getSerialNo] gave
    for it. *)
Definition discovered (USB_VENDOR_IDS : list Z) (usbDevices : list Usb.Device)
    (entry : Usb.AdbDevice) : Prop :=
  In (Usb.device entry) usbDevices /\
  Usb.vendor_allowed USB_VENDOR_IDS (Usb.device entry) /\
  fst (Usb._getAdbInterface (Usb.device entry)) =
    Normal (Some (Usb.deviceInterface entry)) /\
  fst (Usb._getSerialNo (Usb.device entry)) = Normal (Usb.serialNumber entry).

(** ** Concrete exchanges

    The end-to-end scenarios of the handshake, as scripts for the scripted
    device. *)

Module Scenario.
Import Mock.

(** The device's challenge, AUTH(TOKEN, 0, 20 bytes). *)
Definition token_packet : Packet :=
  mkPacket CMD_AUTH TOKEN 0 "01234567890123456789".

(** The device's CNXN. *)
Definition cnxn_packet : Packet :=
  mkPacket CMD_CNXN CONNECT_VERSION CONNECT_MAXDATA "device::".

Definition fresh (d : Device) : ADB Device := mkADB NOT_CONNECTED d.

(** Trusted first use: the signature is accepted. *)
Definition trusted : Device :=
  mkDevice [Normal tt] [Normal (pv_packet token_packet)] [Normal true] [] [] [].

(** Untrusted, then approved: the signature is rejected, the public key is
    accepted. *)
Definition approved : Device :=
  mkDevice [Normal tt] [Normal (pv_packet token_packet)] [Normal false]
    [Normal true] [] [].

(** Untrusted, approved late: the receive after the public key times out
    once; the second round of the handshake finds the key trusted. *)
Definition approved_late : Device :=
  mkDevice [Normal tt; Normal tt]
    [Normal (pv_packet token_packet); Normal (pv_packet token_packet)]
    [Normal false; Normal true]
    [Throw timeout_error] [] [].

(** A device that answers the CNXN of the host with a CNXN of its own, and
    whose [waitForAuth] hands that packet over. *)
Definition no_auth : Device :=
  mkDevice [Normal tt] [Normal (pv_packet cnxn_packet)] [] [] [] [].

(** A connected device with one command result to give. *)
Definition ready : Device :=
  mkDevice [] [] [] [] [Normal "hello"%string] [Normal tt].

(** The late-approval exchange at the moment the public key is sent. *)
Definition awaiting_approval : ADB Device :=
  mkADB SEND_PUBLIC_KEY
    (mkDevice [Normal tt] [Normal (pv_packet token_packet)] [Normal true]
       [Throw timeout_error] [] []).

(** The host has sent its CNXN and waits for the device's first message. *)
Definition awaiting_auth (reply : Completion PacketVar) : ADB Device :=
  mkADB WAIT_FOR_AUTH (mkDevice [] [reply] [] [] [] []).

(** The challenge has been received and the signed token is about to be
    sent. *)
Definition signing (reply : Completion bool) : ADB Device :=
  mkADB SEND_PRIVATE_KEY (mkDevice [] [] [reply] [] [] []).

(** The public key has been sent to a device that answers with the given
    packets. *)
Definition offering_key (replies : list Packet) : ADB Wire.t :=
  mkADB SEND_PUBLIC_KEY (Wire.receiving replies).

(** A stand-in key pair: the "signature" is the token itself. *)
Definition sign (token : Bytes) : Bytes := token.
Definition public_key : Bytes := "QAAAAKhk user@host".

Definition okay_packet : Packet := mkPacket CMD_OKAY 7 12345 "".
Definition clse_packet : Packet := mkPacket CMD_CLSE 7 12345 "".

Definition io_error : JsError :=
  {| errno := Some 1; message := "LIBUSB_TRANSFER_ERROR" |}.

End Scenario.

(** Untrusted, and the user never approves: the device challenges, rejects
    every signature, and lets every receive after the public key time out. *)
Module Unapproving.

#[global] Instance handshake : ADBHandshake unit := {
  initConnection := fun d => (Normal tt, d);
  waitForAuth := fun d => (Normal (pv_packet Scenario.token_packet), d);
  sendSignedToken := fun _ d => (Normal false, d);
  sendPublicKey := fun d => (Throw Mock.timeout_error, d)
}.

Definition waiting : ADB unit := mkADB SEND_PUBLIC_KEY tt.

End Unapproving.

(** Devices on the bus, for the discovery functions. *)
Module UsbScenario.
Import Usb.

Definition bulk_in : Endpoint := mkEndpoint dir_in 0x81.
Definition bulk_out : Endpoint := mkEndpoint dir_out 0x01.

Definition adb_interface : Interface :=
  mkInterface [bulk_in; bulk_out] (mkInterfaceDescriptor 0xFF 0x42 0x01).

Definition storage_interface : Interface :=
  mkInterface [bulk_in; bulk_out] (mkInterfaceDescriptor 0x08 0x06 0x50).

Definition hid_interface : Interface :=
  mkInterface [bulk_in] (mkInterfaceDescriptor 0x03 0x01 0x01).

(** The string descriptor of the serial number "AB": a two-byte header and
    the UTF-16LE code units. *)
Definition serial_descriptor : list Byte.byte :=
  [Byte.x06; Byte.x03; Byte.x41; Byte.x00; Byte.x42; Byte.x00].

(** Google and Samsung, an extract of the allow-list. *)
Definition vendor_ids : list Z := [0x18d1; 0x04e8].

(** A phone with debugging enabled. *)
Definition phone : Device :=
  mkDevice (Some (mkDeviceDescriptor 0x18d1 3)) (Some (mkConfigDescriptor 2))
    (Some [storage_interface; adb_interface]) (Normal tt)
    (fun _ _ _ _ _ => Normal serial_descriptor).

(** A phone of an allowed vendor with debugging disabled. *)
Definition locked_phone : Device :=
  mkDevice (Some (mkDeviceDescriptor 0x04e8 3)) (Some (mkConfigDescriptor 1))
    (Some [storage_interface]) (Normal tt)
    (fun _ _ _ _ _ => Normal serial_descriptor).

(** A keyboard of a vendor that is not on the list. *)
Definition keyboard : Device :=
  mkDevice (Some (mkDeviceDescriptor 0x046d 0)) (Some (mkConfigDescriptor 1))
    (Some [hid_interface]) (Normal tt)
    (fun _ _ _ _ _ => Throw (Error "LIBUSB_TRANSFER_STALL")).


(** A phone that answers the serial-number request with the descriptor of
    the code units given. *)
Definition phone_with_serial (s : JsString) : Device :=
  mkDevice (Some (mkDeviceDescriptor 0x18d1 3)) (Some (mkConfigDescriptor 2))
    (Some [storage_interface; adb_interface]) (Normal tt)
    (fun _ _ _ _ _ => Normal (string_descriptor s)).

End UsbScenario.

(** * Properties of the connection state machine *)

(** Splits on every branch [connect_step] can take. *)
Ltac step_cases :=
  repeat match goal with
  | |- context [Z.eqb ?x ?y] => destruct (Z.eqb_spec x y)
  | |- context [initConnection ?d] => destruct (initConnection d) as [[[]|?] ?]
  | |- context [waitForAuth ?d] => destruct (waitForAuth d) as [[[| |?]|?] ?]
  | |- context [sendSignedToken ?t ?d] => destruct (sendSignedToken t d) as [[[|]|?] ?]
  | |- context [sendPublicKey ?d] => destruct (sendPublicKey d) as [[[|]|?] ?]
  | |- context [packet_data ?p] => destruct (packet_data p)
  | |- context [is_timeout ?e] => destruct (is_timeout e)
  end.

Section ConnectFacts.
Context {D Cmd Out : Type}.
Context {handshake : ADBHandshake D} {session : ADBSession D Cmd Out}.

Local Abbreviation step := (@connect_step D Cmd handshake).
Local Abbreviation loop := (@connect_loop D Cmd handshake).

Lemma connect_step_return (pkt : PacketVar) (a a' : ADB D) calls :
  step pkt a = (Return a', calls) ->
  a' = a /\ state a = CONNECTED /\ calls = [].
Proof.
  unfold connect_step, on_error. step_cases; intros E; inversion E; subst; auto.
Qed.

Lemma connect_loop_returned (fuel : nat) :
  forall (pkt : PacketVar) (a a' : ADB D) calls,
    loop fuel pkt a = (Returned a', calls) -> state a' = CONNECTED.
Proof.
  induction fuel as [|fuel IH]; intros pkt a a' calls; simpl.
  - discriminate.
  - destruct (step pkt a) as [[pkt1 a1|a1|e a1] calls1] eqn:Es.
    + destruct (loop fuel pkt1 a1) as [o calls2] eqn:El.
      intros E; inversion E; subst. eapply IH; eauto.
    + intros E; inversion E; subst.
      apply connect_step_return in Es. destruct Es as (-> & Hs & _). exact Hs.
    + discriminate.
Qed.

Lemma connect_step_default (pkt : PacketVar) (a : ADB D) :
  unrecognised (state a) ->
  step pkt a = (Continue pkt (set_state NOT_CONNECTED a), []).
Proof.
  intros (H0 & H1 & H2 & H3 & H4). unfold connect_step.
  repeat match goal with
  | |- context [Z.eqb ?x ?y] => destruct (Z.eqb_spec x y); [congruence|]
  end.
  reflexivity.
Qed.

(** A turn that raises ends [connect] with that error. *)
Lemma connect_loop_raise (fuel : nat) (pkt : PacketVar) (a a' : ADB D) e calls :
  step pkt a = (Raise e a', calls) ->
  loop (S fuel) pkt a = (Threw e a', calls).
Proof. intros E. simpl. rewrite E. reflexivity. Qed.

(** A turn that continues hands the loop the new [packet] and state. *)
Lemma connect_loop_continue (fuel : nat) (pkt pkt' : PacketVar) (a a' : ADB D) calls :
  step pkt a = (Continue pkt' a', calls) ->
  loop (S fuel) pkt a =
    (fst (loop fuel pkt' a'), calls ++ snd (loop fuel pkt' a')).
Proof.
  intros E. simpl. rewrite E. destruct (loop fuel pkt' a'); reflexivity.
Qed.

(** Turns taken so far can be split off a longer run. *)
Lemma connect_loop_app (n m : nat) :
  forall (pkt pkt' : PacketVar) (a a' : ADB D) calls,
    loop n pkt a = (Running pkt' a', calls) ->
    loop (n + m) pkt a =
      (fst (loop m pkt' a'), calls ++ snd (loop m pkt' a')).
Proof.
  induction n as [|n IH]; intros pkt pkt' a a' calls; simpl.
  - intros E; inversion E; subst. destruct (loop m pkt' a'); reflexivity.
  - destruct (step pkt a) as [[pkt1 a1|a1|e a1] calls1]; try discriminate.
    destruct (loop n pkt1 a1) as [o calls2] eqn:El.
    intros E; inversion E; subst.
    rewrite (IH _ _ _ _ _ El). simpl. rewrite app_assoc. reflexivity.
Qed.

(** A call of [connect] that has ended is not changed by more fuel: the
    fuel only bounds how long a run is followed. *)
Lemma connect_loop_more_fuel (n m : nat) :
  forall (pkt : PacketVar) (a : ADB D) (o : Outcome D) calls,
    loop n pkt a = (o, calls) ->
    (forall pkt' a', o <> Running pkt' a') ->
    loop (n + m) pkt a = (o, calls).
Proof.
  induction n as [|n IH]; intros pkt a o calls; simpl.
  - intros E Hend. inversion E; subst. destruct (Hend pkt a eq_refl).
  - destruct (step pkt a) as [[pkt1 a1|a1|e a1] calls1]; auto.
    destruct (loop n pkt1 a1) as [o1 calls2] eqn:El.
    intros E Hend. inversion E; subst.
    rewrite (IH _ _ _ _ El Hend). reflexivity.
Qed.

End ConnectFacts.

Section ConnectClaims.
Context {D Cmd Out : Type}.
Context {handshake : ADBHandshake D} {session : ADBSession D Cmd Out}.

Local Abbreviation step := (@connect_step D Cmd handshake).
Local Abbreviation loop := (@connect_loop D Cmd handshake).

(** C10: whenever [connect] returns normally the state is CONNECTED.  A
    turn of the loop taken in any other state never returns: it goes round
    again or raises, and an unrecognised state value goes round again as
    NOT_CONNECTED without touching the device. *)
Theorem connect_returns_only_connected :
  (forall (fuel : nat) (a a' : ADB D) (calls : list (DeviceCall Cmd)),
      connect fuel a = (Returned a', calls) -> state a' = CONNECTED) /\
  (forall (pkt : PacketVar) (a : ADB D),
      state a <> CONNECTED ->
      forall a' calls, step pkt a <> (Return a', calls)) /\
  (forall (pkt : PacketVar) (a : ADB D),
      unrecognised (state a) ->
      step pkt a = (Continue pkt (set_state NOT_CONNECTED a), [])).
Proof.
  split; [|split].
  - intros fuel a a' calls E. exact (connect_loop_returned _ _ _ E).
  - intros pkt a Hs a' calls E.
    apply connect_step_return in E. tauto.
  - intros pkt a. apply connect_step_default.
Qed.

End ConnectClaims.

(** The trusted first-use exchange ends in CONNECTED, after three calls on
    the device. *)
Lemma connect_returns_only_connected_witness :
  connect (Cmd := string) 4 (Scenario.fresh Scenario.trusted) =
    (Returned (mkADB CONNECTED Mock.silent),
     [call_initConnection; call_waitForAuth;
      call_sendSignedToken (Some (data Scenario.token_packet))]) /\
  state (mkADB CONNECTED Mock.silent) = CONNECTED.
Proof.
  split; [reflexivity|].
  apply (proj1 (@connect_returns_only_connected Mock.Device string Mock.handshake)
           4%nat (Scenario.fresh Scenario.trusted) _
           [call_initConnection; call_waitForAuth;
            call_sendSignedToken (Some (data Scenario.token_packet))]).
  reflexivity.
Defined.

(** The handshake with the device of [Unapproving] goes round for ever: no
    amount of fuel ends it. *)
Lemma unapproving_runs (fuel : nat) :
  forall (s : Z) (pkt : PacketVar),
    s = NOT_CONNECTED \/ s = WAIT_FOR_AUTH \/ s = SEND_PUBLIC_KEY \/
    (s = SEND_PRIVATE_KEY /\ pkt = pv_packet Scenario.token_packet) ->
    exists pkt' a',
      fst (connect_loop (Cmd := string) fuel pkt (mkADB s tt)) = Running pkt' a'.
Proof.
  induction fuel as [|fuel IH]; intros s pkt Hs.
  - simpl. eauto.
  - destruct Hs as [-> | [-> | [-> | [-> ->]]]]; simpl;
      match goal with
      | |- context [connect_loop fuel ?p ?a] =>
          let s' := eval compute in (state a) in
          specialize (IH s' p); change a with (mkADB s' tt);
          destruct (connect_loop (Cmd := string) fuel p (mkADB s' tt)) as [o calls];
          simpl in *; apply IH; auto
      end.
Qed.

(** C1 fails on the code: with a device whose receive after the public key
    times out every time, the timeout met in SEND_PUBLIC_KEY is never
    surfaced, for [connect] raises nothing however long it runs. *)
Lemma timeout_in_SEND_PUBLIC_KEY_not_surfaced :
  state Unapproving.waiting = SEND_PUBLIC_KEY /\
  sendPublicKey (device Unapproving.waiting) = (Throw Mock.timeout_error, tt) /\
  is_timeout Mock.timeout_error = true /\
  forall fuel : nat,
    ~ exists e a calls,
        connect (Cmd := string) fuel Unapproving.waiting = (Threw e a, calls).
Proof.
  repeat split.
  intros fuel (e & a & calls & E).
  destruct (@unapproving_runs fuel SEND_PUBLIC_KEY pv_undefined) as (pkt' & a' & R);
    [auto|].
  unfold connect, Unapproving.waiting in E. rewrite E in R. discriminate.
Qed.

Section Transitions.
Context {D Cmd : Type} {handshake : ADBHandshake D}.

Local Abbreviation step := (@connect_step D Cmd handshake).
Local Abbreviation loop := (@connect_loop D Cmd handshake).

(** C1, amended: a timeout met in SEND_PUBLIC_KEY is not surfaced.  The
    turn only sets the state to NOT_CONNECTED and the loop goes round again;
    the next operation on the device is [initConnection]: if it resolves,
    [connect] goes on from WAIT_FOR_AUTH, and if it throws, [connect] throws
    that error with the state left at NOT_CONNECTED. *)
Theorem timeout_in_SEND_PUBLIC_KEY_retries
    (pkt : PacketVar) (a : ADB D) (e : JsError) (d' : D) :
  state a = SEND_PUBLIC_KEY ->
  sendPublicKey (device a) = (Throw e, d') ->
  is_timeout e = true ->
  step pkt a = (Continue pkt (mkADB NOT_CONNECTED d'), [call_sendPublicKey]) /\
  forall fuel : nat,
    loop (S (S fuel)) pkt a =
      match initConnection d' with
      | (Normal _, d'') =>
          (fst (loop fuel pkt (mkADB WAIT_FOR_AUTH d'')),
           call_sendPublicKey :: call_initConnection
             :: snd (loop fuel pkt (mkADB WAIT_FOR_AUTH d'')))
      | (Throw e', d'') =>
          (Threw e' (mkADB NOT_CONNECTED d''),
           [call_sendPublicKey; call_initConnection])
      end.
Proof.
  intros Hs Hk Ht.
  assert (Es : step pkt a =
               (Continue pkt (mkADB NOT_CONNECTED d'), [call_sendPublicKey])).
  { unfold connect_step, on_error. rewrite Hs, Hk, Ht. reflexivity. }
  split; [exact Es|].
  intros fuel. erewrite connect_loop_continue by exact Es.
  destruct (initConnection d') as [[[]|e'] d''] eqn:Ei.
  - erewrite connect_loop_continue
      by (unfold connect_step; simpl; rewrite Ei; reflexivity).
    reflexivity.
  - erewrite connect_loop_raise
      by (unfold connect_step; simpl; rewrite Ei; reflexivity).
    reflexivity.
Qed.

(** C2, amended: out of WAIT_FOR_AUTH the state machine goes to
    SEND_PRIVATE_KEY when [waitForAuth] resolves to anything but [false]
    (a CNXN packet included) and back to NOT_CONNECTED when it resolves to
    [false] or times out; whatever the device does, the turn neither
    reaches CONNECTED nor returns. *)
Theorem WAIT_FOR_AUTH_successors (pkt : PacketVar) (a : ADB D) :
  state a = WAIT_FOR_AUTH ->
  (forall d', waitForAuth (device a) = (Normal pv_false, d') ->
     step pkt a = (Continue pv_false (mkADB NOT_CONNECTED d'), [call_waitForAuth])) /\
  (forall v d', waitForAuth (device a) = (Normal v, d') -> v <> pv_false ->
     step pkt a = (Continue v (mkADB SEND_PRIVATE_KEY d'), [call_waitForAuth])) /\
  (forall e d', waitForAuth (device a) = (Throw e, d') -> is_timeout e = true ->
     step pkt a = (Continue pkt (mkADB NOT_CONNECTED d'), [call_waitForAuth])) /\
  (forall pkt' a' calls, step pkt a = (Continue pkt' a', calls) ->
     state a' = SEND_PRIVATE_KEY \/ state a' = NOT_CONNECTED) /\
  (forall a' calls, step pkt a <> (Return a', calls)).
Proof.
  intros Hs. repeat split.
  - intros d' Hw. unfold connect_step. rewrite Hs, Hw. reflexivity.
  - intros v d' Hw Hv. unfold connect_step. rewrite Hs, Hw. simpl.
    destruct v; [reflexivity | congruence | reflexivity].
  - intros e d' Hw Ht. unfold connect_step, on_error. rewrite Hs, Hw, Ht.
    reflexivity.
  - intros pkt' a' calls. unfold connect_step, on_error. rewrite Hs. simpl.
    step_cases; intros E; inversion E; subst; simpl; auto.
  - intros a' calls E. apply connect_step_return in E.
    destruct E as (_ & E & _). rewrite Hs in E. discriminate.
Qed.

End Transitions.

(** The late-approval exchange: the timeout in SEND_PUBLIC_KEY is followed by
    a second handshake, and [connect] returns connected without having raised
    anything. *)
Lemma timeout_in_SEND_PUBLIC_KEY_retries_witness :
  connect_step (Cmd := string) (pv_packet Scenario.token_packet)
      Scenario.awaiting_approval =
    (Continue (pv_packet Scenario.token_packet)
       (mkADB NOT_CONNECTED
          (Mock.mkDevice [Normal tt] [Normal (pv_packet Scenario.token_packet)]
             [Normal true] [] [] [])),
     [call_sendPublicKey]) /\
  connect_loop (Cmd := string) 5 (pv_packet Scenario.token_packet)
      Scenario.awaiting_approval =
    (Returned (mkADB CONNECTED Mock.silent),
     [call_sendPublicKey; call_initConnection; call_waitForAuth;
      call_sendSignedToken (Some (data Scenario.token_packet))]).
Proof.
  destruct (@timeout_in_SEND_PUBLIC_KEY_retries Mock.Device string Mock.handshake
              (pv_packet Scenario.token_packet) Scenario.awaiting_approval
              Mock.timeout_error
              (Mock.mkDevice [Normal tt] [Normal (pv_packet Scenario.token_packet)]
                 [Normal true] [] [] [])
              eq_refl eq_refl eq_refl) as [Hstep Hloop].
  split; [exact Hstep|].
  rewrite (Hloop 3%nat). reflexivity.
Defined.

(** C2 fails on the code: a device that answers the host's CNXN with a CNXN
    is not taken to CONNECTED.  If [waitForAuth] hands the CNXN packet over,
    the next state is SEND_PRIVATE_KEY; if it answers [false], the next state
    is NOT_CONNECTED. *)
Lemma cnxn_in_WAIT_FOR_AUTH_not_connected :
  command Scenario.cnxn_packet = CMD_CNXN /\
  connect_step (Cmd := string) pv_undefined
      (Scenario.awaiting_auth (Normal (pv_packet Scenario.cnxn_packet))) =
    (Continue (pv_packet Scenario.cnxn_packet)
       (mkADB SEND_PRIVATE_KEY Mock.silent), [call_waitForAuth]) /\
  connect_step (Cmd := string) pv_undefined
      (Scenario.awaiting_auth (Normal pv_false)) =
    (Continue pv_false (mkADB NOT_CONNECTED Mock.silent), [call_waitForAuth]) /\
  SEND_PRIVATE_KEY <> CONNECTED /\ NOT_CONNECTED <> CONNECTED.
Proof. repeat split; discriminate. Qed.

Lemma WAIT_FOR_AUTH_successors_witness :
  connect_step (Cmd := string) pv_undefined
      (Scenario.awaiting_auth (Normal (pv_packet Scenario.token_packet))) =
    (Continue (pv_packet Scenario.token_packet)
       (mkADB SEND_PRIVATE_KEY Mock.silent), [call_waitForAuth]).
Proof.
  apply (proj1 (proj2 (@WAIT_FOR_AUTH_successors Mock.Device string Mock.handshake
                         pv_undefined
                         (Scenario.awaiting_auth
                            (Normal (pv_packet Scenario.token_packet)))
                         eq_refl))
           (pv_packet Scenario.token_packet) Mock.silent eq_refl).
  discriminate.
Defined.

Section SigningAndErrors.
Context {D Cmd : Type} {handshake : ADBHandshake D}.

Local Abbreviation step := (@connect_step D Cmd handshake).
Local Abbreviation loop := (@connect_loop D Cmd handshake).

(** C4: in SEND_PRIVATE_KEY, a signature the device accepts
    ([sendSignedToken] resolves to true) leads to CONNECTED and one it
    rejects (false) leads to SEND_PUBLIC_KEY.  A turn that goes on without
    an error has no other successor; the turn never returns. *)
Theorem SEND_PRIVATE_KEY_successors (pkt : PacketVar) (a : ADB D) :
  state a = SEND_PRIVATE_KEY ->
  (forall token d',
      packet_data pkt = Normal token ->
      sendSignedToken token (device a) = (Normal true, d') ->
      step pkt a =
        (Continue pkt (mkADB CONNECTED d'), [call_sendSignedToken token])) /\
  (forall token d',
      packet_data pkt = Normal token ->
      sendSignedToken token (device a) = (Normal false, d') ->
      step pkt a =
        (Continue pkt (mkADB SEND_PUBLIC_KEY d'), [call_sendSignedToken token])) /\
  (forall pkt' a' calls,
      step pkt a = (Continue pkt' a', calls) ->
      exists token,
        packet_data pkt = Normal token /\
        match fst (sendSignedToken token (device a)) with
        | Normal true => state a' = CONNECTED
        | Normal false => state a' = SEND_PUBLIC_KEY
        | Throw e => is_timeout e = true /\ state a' = NOT_CONNECTED
        end) /\
  (forall a' calls, step pkt a <> (Return a', calls)).
Proof.
  intros Hs. repeat split.
  - intros token d' Hp Hk. unfold connect_step. rewrite Hs, Hp, Hk. reflexivity.
  - intros token d' Hp Hk. unfold connect_step. rewrite Hs, Hp, Hk. reflexivity.
  - intros pkt' a' calls. unfold connect_step, on_error. rewrite Hs. simpl.
    destruct (packet_data pkt) as [token|e] eqn:Hp.
    + destruct (sendSignedToken token (device a)) as [[[|]|e] d'] eqn:Hk;
        [| |destruct (is_timeout e) eqn:Ht];
        intros E; inversion E; subst; exists token; rewrite Hk; simpl; auto.
    + destruct pkt; simpl in Hp; try discriminate.
      inversion Hp; subst. simpl. discriminate.
  - intros a' calls E. apply connect_step_return in E.
    destruct E as (_ & E & _). rewrite Hs in E. discriminate.
Qed.

(** C5: a timeout met in WAIT_FOR_AUTH or in SEND_PRIVATE_KEY takes the
    state machine back to NOT_CONNECTED.  Any other error raised by the
    device in WAIT_FOR_AUTH, SEND_PRIVATE_KEY or SEND_PUBLIC_KEY, and any
    error at all in NOT_CONNECTED, ends the turn by raising it; and an error
    raised at any turn of the loop is what [connect] throws. *)
Theorem timeouts_reset_other_errors_propagate
    (pkt : PacketVar) (a : ADB D) (e : JsError) (d' : D) :
  (state a = WAIT_FOR_AUTH ->
   waitForAuth (device a) = (Throw e, d') -> is_timeout e = true ->
   step pkt a = (Continue pkt (mkADB NOT_CONNECTED d'), [call_waitForAuth])) /\
  (forall token,
     state a = SEND_PRIVATE_KEY -> packet_data pkt = Normal token ->
     sendSignedToken token (device a) = (Throw e, d') -> is_timeout e = true ->
     step pkt a =
       (Continue pkt (mkADB NOT_CONNECTED d'), [call_sendSignedToken token])) /\
  (state a = NOT_CONNECTED ->
   initConnection (device a) = (Throw e, d') ->
   step pkt a = (Raise e (mkADB NOT_CONNECTED d'), [call_initConnection])) /\
  (state a = WAIT_FOR_AUTH ->
   waitForAuth (device a) = (Throw e, d') -> is_timeout e = false ->
   step pkt a = (Raise e (mkADB WAIT_FOR_AUTH d'), [call_waitForAuth])) /\
  (forall token,
     state a = SEND_PRIVATE_KEY -> packet_data pkt = Normal token ->
     sendSignedToken token (device a) = (Throw e, d') -> is_timeout e = false ->
     step pkt a =
       (Raise e (mkADB SEND_PRIVATE_KEY d'), [call_sendSignedToken token])) /\
  (state a = SEND_PUBLIC_KEY ->
   sendPublicKey (device a) = (Throw e, d') -> is_timeout e = false ->
   step pkt a = (Raise e (mkADB SEND_PUBLIC_KEY d'), [call_sendPublicKey])) /\
  (forall (n : nat) (a0 a' : ADB D) calls0 calls,
     connect n a0 = (Running pkt a, calls0) ->
     step pkt a = (Raise e a', calls) ->
     forall fuel : nat,
       connect (n + S fuel) a0 = (Threw e a', calls0 ++ calls)).
Proof.
  repeat split.
  - intros Hs Hk Ht. unfold connect_step, on_error. rewrite Hs, Hk, Ht. reflexivity.
  - intros token Hs Hp Hk Ht. unfold connect_step, on_error.
    rewrite Hs, Hp, Hk, Ht. reflexivity.
  - intros Hs Hk. unfold connect_step. rewrite Hs, Hk. simpl.
    unfold set_device. rewrite Hs. reflexivity.
  - intros Hs Hk Ht. unfold connect_step, on_error. rewrite Hs, Hk, Ht. simpl.
    unfold set_device. rewrite Hs. reflexivity.
  - intros token Hs Hp Hk Ht. unfold connect_step, on_error.
    rewrite Hs, Hp, Hk, Ht. simpl. unfold set_device. rewrite Hs. reflexivity.
  - intros Hs Hk Ht. unfold connect_step, on_error. rewrite Hs, Hk, Ht. simpl.
    unfold set_device. rewrite Hs. reflexivity.
  - intros n a0 a' calls0 calls Hrun Hraise fuel. unfold connect in *.
    erewrite connect_loop_app by exact Hrun.
    erewrite connect_loop_raise by exact Hraise. reflexivity.
Qed.

End SigningAndErrors.

(** A rejected signature on the scripted device: on to the public key. *)
Lemma SEND_PRIVATE_KEY_successors_witness :
  connect_step (Cmd := string) (pv_packet Scenario.token_packet)
      (Scenario.signing (Normal false)) =
    (Continue (pv_packet Scenario.token_packet)
       (mkADB SEND_PUBLIC_KEY Mock.silent),
     [call_sendSignedToken (Some (data Scenario.token_packet))]).
Proof.
  apply (proj1 (proj2 (@SEND_PRIVATE_KEY_successors Mock.Device string Mock.handshake
                         (pv_packet Scenario.token_packet)
                         (Scenario.signing (Normal false)) eq_refl))
           (Some (data Scenario.token_packet)) Mock.silent eq_refl eq_refl).
Defined.

(** A timeout while waiting for the challenge resets the state machine; an
    I/O error at the same place, met on the second turn of [connect], is
    thrown to the caller. *)
Lemma timeouts_reset_other_errors_propagate_witness :
  connect_step (Cmd := string) pv_undefined
      (Scenario.awaiting_auth (Throw Mock.timeout_error)) =
    (Continue pv_undefined (mkADB NOT_CONNECTED Mock.silent), [call_waitForAuth]) /\
  connect (Cmd := string) (1 + 1)
      (Scenario.fresh (Mock.mkDevice [Normal tt] [Throw Scenario.io_error] [] [] [] [])) =
    (Threw Scenario.io_error (mkADB WAIT_FOR_AUTH Mock.silent),
     [call_initConnection] ++ [call_waitForAuth]).
Proof.
  split.
  - apply (proj1 (@timeouts_reset_other_errors_propagate Mock.Device string
                    Mock.handshake pv_undefined
                    (Scenario.awaiting_auth (Throw Mock.timeout_error))
                    Mock.timeout_error Mock.silent));
      reflexivity.
  - destruct (@timeouts_reset_other_errors_propagate Mock.Device string
                Mock.handshake pv_undefined
                (Scenario.awaiting_auth (Throw Scenario.io_error))
                Scenario.io_error Mock.silent)
      as (_ & _ & _ & _ & _ & _ & Hprop).
    apply (Hprop 1%nat
             (Scenario.fresh
                (Mock.mkDevice [Normal tt] [Throw Scenario.io_error] [] [] [] []))
             (mkADB WAIT_FOR_AUTH Mock.silent) [call_initConnection]
             [call_waitForAuth]);
      reflexivity.
Defined.

Section Commands.
Context {D Cmd Out : Type} {session : ADBSession D Cmd Out}.

(** C7: [runCommand] hands the command to the device exactly when the state
    is CONNECTED.  In every other state it throws, performs no operation on
    the device and leaves the [ADB] object as it was. *)
Theorem runCommand_only_when_connected (c : Cmd) (a : ADB D) :
  (state a = CONNECTED ->
   runCommand c a =
     (fst (open c (device a)), mkADB CONNECTED (snd (open c (device a))),
      [call_open c])) /\
  (state a <> CONNECTED ->
   runCommand c a =
     (Throw (Error "State is not CONNECTED, cannot run a command."), a, [])) /\
  (In (call_open c) (snd (runCommand c a)) <-> state a = CONNECTED).
Proof.
  unfold runCommand. destruct (Z.eqb_spec (state a) CONNECTED) as [Hs|Hs].
  - destruct (open c (device a)) as [r d] eqn:Eo. simpl.
    unfold set_device. rewrite Hs.
    repeat split; auto; try tauto.
  - repeat split; try tauto. simpl. tauto.
Qed.

End Commands.

(** A command on a connected device is dispatched; the same command before
    the handshake is refused without a call on the device. *)
Lemma runCommand_only_when_connected_witness :
  runCommand "shell:echo hello"%string (mkADB CONNECTED Scenario.ready) =
    (Normal "hello"%string,
     mkADB CONNECTED (Mock.mkDevice [] [] [] [] [] [Normal tt]),
     [call_open "shell:echo hello"%string]) /\
  runCommand "shell:echo hello"%string (mkADB NOT_CONNECTED Scenario.ready) =
    (Throw (Error "State is not CONNECTED, cannot run a command."),
     mkADB NOT_CONNECTED Scenario.ready, []).
Proof.
  split.
  - apply (proj1 (@runCommand_only_when_connected Mock.Device string string
                    Mock.session "shell:echo hello"%string
                    (mkADB CONNECTED Scenario.ready))).
    reflexivity.
  - apply (proj1 (proj2 (@runCommand_only_when_connected Mock.Device string string
                           Mock.session "shell:echo hello"%string
                           (mkADB NOT_CONNECTED Scenario.ready)))).
    discriminate.
Defined.

(** * Properties of the device layer *)

Section PublicKey.
Context {T Cmd : Type} {transport : Transport T}.
Variable sign : Bytes -> Bytes.
Variable public_key : Bytes.

Local Abbreviation key_message := (public_key ++ String zero EmptyString)%string.
Local Abbreviation step :=
  (@connect_step T Cmd (ADBDevice_handshake sign public_key)).

Lemma ADBDevice_sendPublicKey_eq (t : T) :
  ADBDevice_sendPublicKey public_key t =
    match _sendMsg CMD_AUTH 3 0 key_message t with
    | (Normal _, t1) =>
        match _recvMsg CONNECT_MAXDATA t1 with
        | (Normal p, t2) => (Normal (command p =? CMD_CNXN), t2)
        | (Throw e, t2) => (Throw e, t2)
        end
    | (Throw e, t1) => (Throw e, t1)
    end.
Proof.
  unfold ADBDevice_sendPublicKey, bind, ret.
  destruct (_sendMsg _ _ _ _ t) as [[[]|e] t1]; [|reflexivity].
  destruct (_recvMsg _ t1) as [[p|e] t2]; reflexivity.
Qed.

(** C3: in SEND_PUBLIC_KEY the host sends AUTH(3, 0, public key) and reads
    one reply.  A CNXN makes [sendPublicKey] true and the next state
    CONNECTED; any other command makes it false and the next state
    NOT_CONNECTED; and CONNECTED is reached only on a CNXN.  On the scripted
    transport the first thing [sendPublicKey] adds to the log is that AUTH
    message. *)
Theorem SEND_PUBLIC_KEY_follows_reply (pkt : PacketVar) (a : ADB T) :
  state a = SEND_PUBLIC_KEY ->
  (forall t1 p t2,
      _sendMsg CMD_AUTH 3 0 key_message (device a) = (Normal tt, t1) ->
      _recvMsg CONNECT_MAXDATA t1 = (Normal p, t2) ->
      (command p = CMD_CNXN ->
       ADBDevice_sendPublicKey public_key (device a) = (Normal true, t2) /\
       step pkt a = (Continue pkt (mkADB CONNECTED t2), [call_sendPublicKey])) /\
      (command p <> CMD_CNXN ->
       ADBDevice_sendPublicKey public_key (device a) = (Normal false, t2) /\
       step pkt a = (Continue pkt (mkADB NOT_CONNECTED t2), [call_sendPublicKey]))) /\
  (forall pkt' a' calls,
      step pkt a = (Continue pkt' a', calls) -> state a' = CONNECTED ->
      exists t1 p,
        _sendMsg CMD_AUTH 3 0 key_message (device a) = (Normal tt, t1) /\
        _recvMsg CONNECT_MAXDATA t1 = (Normal p, device a') /\
        command p = CMD_CNXN) /\
  (forall w : Wire.t,
      exists ev rest,
        Wire.log (snd (ADBDevice_sendPublicKey public_key w)) =
          Wire.log w ++ ev :: rest /\
        (ev = Wire.Sent CMD_AUTH 3 0 key_message \/
         ev = Wire.SendFailed CMD_AUTH 3 0 key_message)).
Proof.
  intros Hs. split; [|split].
  - intros t1 p t2 Hsend Hrecv.
    assert (Ek : ADBDevice_sendPublicKey public_key (device a) =
                 (Normal (command p =? CMD_CNXN), t2)).
    { rewrite ADBDevice_sendPublicKey_eq, Hsend, Hrecv. reflexivity. }
    split; intros Hc.
    + apply Z.eqb_eq in Hc. rewrite Hc in Ek. split; [exact Ek|].
      unfold connect_step. rewrite Hs. simpl. rewrite Ek. reflexivity.
    + apply Z.eqb_neq in Hc. rewrite Hc in Ek. split; [exact Ek|].
      unfold connect_step. rewrite Hs. simpl. rewrite Ek. reflexivity.
  - intros pkt' a' calls. unfold connect_step, on_error. rewrite Hs. simpl.
    rewrite ADBDevice_sendPublicKey_eq.
    destruct (_sendMsg CMD_AUTH 3 0 key_message (device a)) as [[[]|e] t1] eqn:Hsend.
    + destruct (_recvMsg CONNECT_MAXDATA t1) as [[p|e] t2] eqn:Hrecv.
      * destruct (Z.eqb_spec (command p) CMD_CNXN) as [Hc|Hc];
          intros E; inversion E; subst; simpl; intros Hst; try discriminate.
        exists t1, p. auto.
      * destruct (is_timeout e); intros E; inversion E; subst; discriminate.
    + destruct (is_timeout e); intros E; inversion E; subst; discriminate.
  - intros w. unfold ADBDevice_sendPublicKey, bind, ret. simpl. unfold Wire.send.
    destruct (Wire.tx w) as [|[[]|e] tx']; simpl; unfold Wire.recv; simpl;
      try (destruct (Wire.rx w) as [|[p|e'] rx']; simpl; rewrite <- app_assoc);
      simpl; do 2 eexists;
      (split; [reflexivity | (left; reflexivity) || (right; reflexivity)]).
Qed.

End PublicKey.

(** The device approves at once: the log shows the AUTH(3, 0, key) sent and
    the CNXN received, and the state machine is CONNECTED. *)
Lemma SEND_PUBLIC_KEY_follows_reply_witness :
  @connect_step Wire.t string
      (ADBDevice_handshake Scenario.sign Scenario.public_key)
      pv_undefined (Scenario.offering_key [Scenario.cnxn_packet]) =
    (Continue pv_undefined
       (mkADB CONNECTED
          (Wire.mk [] []
             [Wire.Sent CMD_AUTH 3 0
                (Scenario.public_key ++ String zero EmptyString)%string;
              Wire.Received Scenario.cnxn_packet])),
     [call_sendPublicKey]).
Proof.
  apply (proj1 (@SEND_PUBLIC_KEY_follows_reply Wire.t string Wire.transport
                  Scenario.sign Scenario.public_key pv_undefined
                  (Scenario.offering_key [Scenario.cnxn_packet]) eq_refl)
           (Wire.mk [] [Normal Scenario.cnxn_packet]
              [Wire.Sent CMD_AUTH 3 0
                 (Scenario.public_key ++ String zero EmptyString)%string])
           Scenario.cnxn_packet
           (Wire.mk [] []
              [Wire.Sent CMD_AUTH 3 0
                 (Scenario.public_key ++ String zero EmptyString)%string;
               Wire.Received Scenario.cnxn_packet])
           eq_refl eq_refl).
  reflexivity.
Defined.

(** The command named at the end of an error message. *)
Lemma command_type_CLSE : command_type CMD_CLSE = "CLSE"%string.
Proof. reflexivity. Qed.

Section WindowFacts.
Import Wire.

Lemma window_one_app (l1 l2 : list Event) :
  forall aw : bool,
    window_one aw (l1 ++ l2) =
      window_one aw l1 && window_one (awaiting_after aw l1) l2.
Proof.
  induction l1 as [|ev l1 IH]; intros aw; simpl; [reflexivity|].
  destruct ev as [cmd ? ? ?| | p |]; auto.
  - destruct (cmd =? CMD_WRTE); auto. rewrite IH, andb_assoc. reflexivity.
  - destruct (command p =? CMD_OKAY); auto.
Qed.

Lemma awaiting_after_app (l1 l2 : list Event) :
  forall aw : bool,
    awaiting_after aw (l1 ++ l2) = awaiting_after (awaiting_after aw l1) l2.
Proof.
  induction l1 as [|ev l1 IH]; intros aw; simpl; [reflexivity|].
  destruct ev as [cmd ? ? ?| | p |]; auto.
  - destruct (cmd =? CMD_WRTE); auto.
  - destruct (command p =? CMD_OKAY); auto.
Qed.

(** What one [write] adds to the log of the scripted transport. *)
Lemma write_log (localId remoteId : Z) (payload : Bytes) (w : Wire.t) :
  let sent := Sent CMD_WRTE localId remoteId payload in
  match write localId remoteId payload w with
  | (Normal p, w') =>
      command p = CMD_OKAY /\ log w' = log w ++ [sent; Received p]
  | (Throw e, w') =>
      log w' = log w ++ [SendFailed CMD_WRTE localId remoteId payload] \/
      (exists e', log w' = log w ++ [sent; RecvFailed e']) \/
      (exists p, command p <> CMD_OKAY /\ log w' = log w ++ [sent; Received p])
  end.
Proof.
  unfold write, sendAndOkay, bind, throw, ret. simpl. unfold send.
  destruct (tx w) as [|[[]|e] tx']; simpl; auto;
    unfold recv; simpl;
    (destruct (rx w) as [|[p|e'] rx']; simpl; rewrite <- ?app_assoc; simpl;
     [ right; left; eauto
     | destruct (Z.eqb_spec (command p) CMD_OKAY); simpl;
       [ auto | right; right; eauto ]
     | right; left; eauto ]).
Qed.

(** The window is respected by a log that respects it so far and has no
    OKAY outstanding, whatever the payloads written next. *)
Lemma writes_window_one (localId remoteId : Z) (payloads : list Bytes) :
  forall w : Wire.t,
    window_one false (log w) = true ->
    awaiting_after false (log w) = false ->
    window_one false (log (snd (writes localId remoteId payloads w))) = true.
Proof.
  induction payloads as [|payload rest IH]; intros w Hw Ha; simpl; [exact Hw|].
  unfold bind at 1.
  pose proof (write_log localId remoteId payload w) as Hl. simpl in Hl.
  destruct (write localId remoteId payload w) as [[p|e] w'].
  - destruct Hl as [Hc Hl]. apply Z.eqb_eq in Hc.
    apply IH; rewrite Hl.
    + rewrite window_one_app, Hw, Ha. simpl. rewrite Hc. reflexivity.
    + rewrite awaiting_after_app, Ha. simpl. rewrite Hc. reflexivity.
  - simpl. destruct Hl as [Hl | [[e' Hl] | [p [Hc Hl]]]];
      rewrite Hl, window_one_app, Hw, Ha; simpl; auto.
    destruct (command p =? CMD_OKAY); reflexivity.
Qed.

End WindowFacts.

Section FlowControl.
Context {T : Type} {transport : Transport T}.

(** C6: after its [_sendMsg], [sendAndOkay] reads one reply; it rejects
    with an error whose message ends in the name of the reply's command
    whenever that command is not OKAY, and resolves to the packet received
    when it is.  Writes issued one after the other through it therefore
    keep a window of one: on the scripted transport, whatever the device
    answers, no WRTE is sent while the OKAY of the previous one is
    outstanding. *)
Theorem sendAndOkay_requires_OKAY :
  (forall (cmd arg0 arg1 : Z) (payload : Bytes) (t t1 t2 : T) (p : Packet),
      _sendMsg cmd arg0 arg1 payload t = (Normal tt, t1) ->
      _recvMsg CONNECT_MAXDATA t1 = (Normal p, t2) ->
      (command p <> CMD_OKAY ->
       exists e prefix,
         sendAndOkay cmd arg0 arg1 payload t = (Throw e, t2) /\
         message e = (prefix ++ command_type (command p))%string) /\
      (command p = CMD_OKAY ->
       sendAndOkay cmd arg0 arg1 payload t = (Normal p, t2))) /\
  (forall (tx : list (Completion unit)) (rx : list (Completion Packet))
          (localId remoteId : Z) (payloads : list Bytes),
      Wire.window_one false
        (Wire.log (snd (writes localId remoteId payloads (Wire.mk tx rx []))))
      = true).
Proof.
  split.
  - intros cmd arg0 arg1 payload t t1 t2 p Hsend Hrecv.
    unfold sendAndOkay, bind, throw, ret. rewrite Hsend, Hrecv.
    split; intros Hc.
    + apply Z.eqb_neq in Hc. rewrite Hc. cbn [negb].
      eexists. exists "sendAndOkay did not receive OKAY, got: "%string.
      split; reflexivity.
    + apply Z.eqb_eq in Hc. rewrite Hc. reflexivity.
  - intros tx rx localId remoteId payloads.
    apply writes_window_one; reflexivity.
Qed.

End FlowControl.

(** The two unit tests of [sendAndOkay], and a run of three writes in which
    the device closes the stream after the second: the third payload is never
    sent. *)
Lemma sendAndOkay_requires_OKAY_witness :
  (exists e prefix,
      sendAndOkay CMD_WRTE 12345 7 "test" (Wire.receiving [Scenario.clse_packet]) =
        (Throw e,
         Wire.mk [] [] [Wire.Sent CMD_WRTE 12345 7 "test";
                        Wire.Received Scenario.clse_packet]) /\
      message e = (prefix ++ "CLSE")%string) /\
  sendAndOkay CMD_WRTE 12345 7 "test" (Wire.receiving [Scenario.okay_packet]) =
    (Normal Scenario.okay_packet,
     Wire.mk [] [] [Wire.Sent CMD_WRTE 12345 7 "test";
                    Wire.Received Scenario.okay_packet]) /\
  Wire.wrte_sent
    (Wire.log (snd (writes 12345 7 ["a"; "b"; "c"]%string
                      (Wire.receiving [Scenario.okay_packet; Scenario.clse_packet;
                                       Scenario.okay_packet]))))
    = ["a"; "b"]%string.
Proof.
  destruct (@sendAndOkay_requires_OKAY Wire.t Wire.transport) as [Hreply _].
  split; [|split].
  - apply (proj1 (Hreply CMD_WRTE 12345 7 "test"%string
                    (Wire.receiving [Scenario.clse_packet])
                    (Wire.mk [] [Normal Scenario.clse_packet]
                       [Wire.Sent CMD_WRTE 12345 7 "test"])
                    (Wire.mk [] [] [Wire.Sent CMD_WRTE 12345 7 "test";
                                    Wire.Received Scenario.clse_packet])
                    Scenario.clse_packet eq_refl eq_refl)).
    discriminate.
  - apply (proj2 (Hreply CMD_WRTE 12345 7 "test"%string
                    (Wire.receiving [Scenario.okay_packet])
                    (Wire.mk [] [Normal Scenario.okay_packet]
                       [Wire.Sent CMD_WRTE 12345 7 "test"])
                    (Wire.mk [] [] [Wire.Sent CMD_WRTE 12345 7 "test";
                                    Wire.Received Scenario.okay_packet])
                    Scenario.okay_packet eq_refl eq_refl)).
    reflexivity.
  - reflexivity.
Defined.

(** * Properties of USB discovery *)

Section UsbFacts.
Import Usb Usb.ADB_VALUES.

Lemma is_adb_interface_true (iface : Interface) :
  is_adb_interface iface = true <->
  List.length (endpoints iface) = 2%nat /\
  bInterfaceClass (descriptor iface) = 0xFF /\
  bInterfaceSubClass (descriptor iface) = 0x42 /\
  bInterfaceProtocol (descriptor iface) = 0x01.
Proof.
  unfold is_adb_interface, ADB_CLASS, ADB_SUBCLASS, ADB_PROTOCOL.
  destruct (Z.eqb_spec (Z.of_nat (List.length (endpoints iface))) 2) as [Hn|Hn];
    destruct (Z.eqb_spec (bInterfaceClass (descriptor iface)) 255) as [Hc|Hc];
    destruct (Z.eqb_spec (bInterfaceSubClass (descriptor iface)) 66) as [Hs|Hs];
    destruct (Z.eqb_spec (bInterfaceProtocol (descriptor iface)) 1) as [Hp|Hp];
    simpl; split; try discriminate; try tauto; try lia.
Qed.

Lemma search_interfaces_some (ifaces : list Interface) (iface : Interface) :
  search_interfaces ifaces = Some iface ->
  In iface ifaces /\ is_adb_interface iface = true.
Proof.
  induction ifaces as [|i rest IH]; simpl; [discriminate|].
  destruct (is_adb_interface i) eqn:Hi.
  - intros E; inversion E; subst. auto.
  - intros E. destruct (IH E). auto.
Qed.

Lemma search_interfaces_none (ifaces : list Interface) :
  (forall iface, In iface ifaces -> is_adb_interface iface = false) ->
  search_interfaces ifaces = None.
Proof.
  induction ifaces as [|i rest IH]; simpl; [reflexivity|].
  intros H. rewrite (H i) by auto. apply IH. intros iface Hin. apply H. auto.
Qed.

Lemma getAdbInterface_some (device : Device) (iface : Interface) :
  fst (_getAdbInterface device) = Normal (Some iface) ->
  exists ifaces,
    interfaces device = Some ifaces /\ In iface ifaces /\
    is_adb_interface iface = true.
Proof.
  unfold _getAdbInterface.
  destruct (on_open device); [|discriminate].
  destruct (interfaces device) as [ifaces|]; [|discriminate].
  destruct (deviceDescriptor device), (configDescriptor device);
    simpl; try discriminate.
  intros E. inversion E as [E']. apply search_interfaces_some in E'.
  exists ifaces. tauto.
Qed.

Lemma getAdbInterface_unexposed (device : Device) :
  ~ exposes_adb_interface device ->
  fst (_getAdbInterface device) =
    match on_open device with
    | Normal _ => Normal None
    | Throw e => Throw e
    end.
Proof.
  intros Hex. unfold _getAdbInterface.
  destruct (on_open device); [|reflexivity].
  destruct (interfaces device) as [ifaces|] eqn:Hi; [|reflexivity].
  destruct (deviceDescriptor device), (configDescriptor device);
    try reflexivity.
  simpl. rewrite search_interfaces_none; [reflexivity|].
  intros iface Hin. destruct (is_adb_interface iface) eqn:Ha; [|reflexivity].
  exfalso. apply Hex. exists ifaces, iface. auto.
Qed.

Lemma getAdbInterface_calls (device : Device) :
  snd (_getAdbInterface device) = [call_open device].
Proof.
  unfold _getAdbInterface.
  destruct (on_open device); [|reflexivity].
  destruct (interfaces device); [|reflexivity].
  destruct (deviceDescriptor device), (configDescriptor device); reflexivity.
Qed.

Lemma getSerialNo_calls (device : Device) :
  Forall (fun c => called_on c = device) (snd (_getSerialNo device)).
Proof.
  unfold _getSerialNo.
  destruct (on_open device); [|repeat constructor].
  destruct (deviceDescriptor device) as [dd|]; [|repeat constructor].
  destruct (controlTransfer device _ _ _ _ _); repeat constructor.
Qed.

Lemma indexOf_from_found (l : list Z) (x : Z) :
  forall i, 0 <= i -> In x l -> 0 <= indexOf_from i l x.
Proof.
  induction l as [|y rest IH]; intros i Hi Hin; simpl in *; [tauto|].
  destruct (Z.eqb_spec y x); [lia|].
  apply IH; [lia|]. destruct Hin; [congruence|assumption].
Qed.

Lemma indexOf_from_missing (l : list Z) (x : Z) :
  forall i, ~ In x l -> indexOf_from i l x = -1.
Proof.
  induction l as [|y rest IH]; intros i Hin; simpl in *; [reflexivity|].
  destruct (Z.eqb_spec y x); [tauto|]. apply IH. tauto.
Qed.

Lemma indexOf_missing (l : list Z) (x : Z) :
  (indexOf l x =? -1) = true <-> ~ In x l.
Proof.
  unfold indexOf. split.
  - intros E Hin. apply Z.eqb_eq in E.
    pose proof (indexOf_from_found l x (i := 0)) as H.
    specialize (H ltac:(lia) Hin). lia.
  - intros Hin. rewrite indexOf_from_missing by assumption. reflexivity.
Qed.

End UsbFacts.

Section Discovery.
Import Usb.
Variable USB_VENDOR_IDS : list Z.

Local Abbreviation allowed := (vendor_allowed USB_VENDOR_IDS).
Local Abbreviation wanted :=
  (fun d => vendor_allowed USB_VENDOR_IDS d /\ exposes_adb_interface d).

Lemma scan_calls (usbDevices : list Device) :
  forall adbDevices,
    Forall (fun c => allowed (called_on c))
      (snd (scan USB_VENDOR_IDS usbDevices adbDevices)).
Proof.
  induction usbDevices as [|d rest IH]; intros acc; simpl; [constructor|].
  destruct (deviceDescriptor d) as [dd|] eqn:Hd; [|constructor].
  destruct (indexOf USB_VENDOR_IDS (idVendor dd) =? -1) eqn:Hi; [apply IH|].
  assert (Hal : allowed d).
  { exists dd. split; [assumption|].
    destruct (in_dec Z.eq_dec (idVendor dd) USB_VENDOR_IDS) as [Hin|Hin]; auto.
    apply indexOf_missing in Hin. congruence. }
  pose proof (getAdbInterface_calls d) as Hc.
  destruct (_getAdbInterface d) as [[[iface|]|e] calls]; simpl in Hc; subst calls.
  - pose proof (getSerialNo_calls d) as Hs.
    destruct (_getSerialNo d) as [[sn|e] calls1]; simpl in Hs.
    + specialize (IH (acc ++ [mkAdbDevice d iface sn])).
      destruct (scan USB_VENDOR_IDS rest _) as [r calls']. simpl in *.
      constructor; [exact Hal|]. apply Forall_app. split; [|exact IH].
      eapply Forall_impl; [|exact Hs]. simpl. intros c ->. exact Hal.
    + simpl. constructor; [exact Hal|].
      eapply Forall_impl; [|exact Hs]. simpl. intros c ->. exact Hal.
  - specialize (IH acc).
    destruct (scan USB_VENDOR_IDS rest acc) as [r calls']. simpl in *.
    constructor; assumption.
  - simpl. repeat constructor. exact Hal.
Qed.

Lemma scan_no_match (usbDevices : list Device) :
  (forall d, In d usbDevices -> ~ wanted d) ->
  forall adbDevices,
    match fst (scan USB_VENDOR_IDS usbDevices adbDevices) with
    | Normal found => found = adbDevices
    | Throw _ => True
    end.
Proof.
  induction usbDevices as [|d rest IH]; intros Hno acc; simpl; [reflexivity|].
  assert (Hrest : forall d', In d' rest -> ~ wanted d') by (intros; apply Hno; simpl; auto).
  destruct (deviceDescriptor d) as [dd|] eqn:Hd; [|exact I].
  destruct (indexOf USB_VENDOR_IDS (idVendor dd) =? -1) eqn:Hi; [apply IH; assumption|].
  assert (Hal : allowed d).
  { exists dd. split; [assumption|].
    destruct (in_dec Z.eq_dec (idVendor dd) USB_VENDOR_IDS) as [Hin|Hin]; auto.
    apply indexOf_missing in Hin. congruence. }
  pose proof (@getAdbInterface_some d) as Hsome.
  destruct (_getAdbInterface d) as [[[iface|]|e] calls]; simpl in Hsome.
  - exfalso. apply (Hno d); [simpl; auto|]. split; [exact Hal|].
    destruct (Hsome iface eq_refl) as (ifaces & H1 & H2 & H3).
    exists ifaces, iface. auto.
  - specialize (IH Hrest acc).
    destruct (scan USB_VENDOR_IDS rest acc) as [r calls']. exact IH.
  - exact I.
Qed.

Lemma scan_no_match_normal (usbDevices : list Device) :
  (forall d, In d usbDevices -> ~ wanted d) ->
  (forall d, In d usbDevices ->
     deviceDescriptor d <> None /\ on_open d = Normal tt) ->
  forall adbDevices,
    fst (scan USB_VENDOR_IDS usbDevices adbDevices) = Normal adbDevices.
Proof.
  induction usbDevices as [|d rest IH]; intros Hno Hok acc; simpl; [reflexivity|].
  assert (Hrest : forall d', In d' rest -> ~ wanted d') by (intros; apply Hno; simpl; auto).
  assert (Hokr : forall d', In d' rest ->
            deviceDescriptor d' <> None /\ on_open d' = Normal tt)
    by (intros; apply Hok; simpl; auto).
  destruct (Hok d) as [Hd Ho]; [simpl; auto|].
  destruct (deviceDescriptor d) as [dd|] eqn:Edd; [|congruence].
  destruct (indexOf USB_VENDOR_IDS (idVendor dd) =? -1) eqn:Hi; [apply IH; assumption|].
  assert (Hal : allowed d).
  { exists dd. split; [assumption|].
    destruct (in_dec Z.eq_dec (idVendor dd) USB_VENDOR_IDS) as [Hin|Hin]; auto.
    apply indexOf_missing in Hin. congruence. }
  assert (Hex : ~ exposes_adb_interface d)
    by (intros Hex; apply (Hno d); simpl; auto).
  pose proof (getAdbInterface_unexposed Hex) as Hnull. rewrite Ho in Hnull.
  destruct (_getAdbInterface d) as [r calls]. simpl in Hnull. subst r.
  specialize (IH Hrest Hokr acc).
  destruct (scan USB_VENDOR_IDS rest acc) as [r calls']. exact IH.
Qed.

End Discovery.

(** C8: an interface returned by [_getAdbInterface] is one of the device's
    interfaces, has exactly two endpoints and carries class 0xFF, subclass
    0x42 and protocol 0x01; when no interface of the device meets all of
    these, the result is [null] (unless [device.open()] itself throws). *)
Theorem getAdbInterface_returns_adb_interface (device : Usb.Device) :
  (forall iface : Usb.Interface,
      fst (Usb._getAdbInterface device) = Normal (Some iface) ->
      (exists ifaces, Usb.interfaces device = Some ifaces /\ In iface ifaces) /\
      List.length (Usb.endpoints iface) = 2%nat /\
      Usb.bInterfaceClass (Usb.descriptor iface) = 0xFF /\
      Usb.bInterfaceSubClass (Usb.descriptor iface) = 0x42 /\
      Usb.bInterfaceProtocol (Usb.descriptor iface) = 0x01) /\
  ((forall ifaces iface,
       Usb.interfaces device = Some ifaces -> In iface ifaces ->
       ~ (List.length (Usb.endpoints iface) = 2%nat /\
          Usb.bInterfaceClass (Usb.descriptor iface) = 0xFF /\
          Usb.bInterfaceSubClass (Usb.descriptor iface) = 0x42 /\
          Usb.bInterfaceProtocol (Usb.descriptor iface) = 0x01)) ->
   fst (Usb._getAdbInterface device) =
     match Usb.on_open device with
     | Normal _ => Normal None
     | Throw e => Throw e
     end).
Proof.
  split.
  - intros iface E.
    destruct (@getAdbInterface_some device iface E) as (ifaces & Hi & Hin & Ha).
    apply is_adb_interface_true in Ha. split; [eauto|exact Ha].
  - intros Hno. apply getAdbInterface_unexposed.
    intros (ifaces & iface & Hi & Hin & Ha).
    apply is_adb_interface_true in Ha. exact (Hno ifaces iface Hi Hin Ha).
Qed.

(** The phone's second interface is the one returned; the locked phone has
    none to return. *)
Lemma getAdbInterface_returns_adb_interface_witness :
  Usb._getAdbInterface UsbScenario.phone =
    (Normal (Some UsbScenario.adb_interface), [Usb.call_open UsbScenario.phone]) /\
  List.length (Usb.endpoints UsbScenario.adb_interface) = 2%nat /\
  fst (Usb._getAdbInterface UsbScenario.locked_phone) = Normal None.
Proof.
  split; [reflexivity|]. split.
  - apply (proj1 (getAdbInterface_returns_adb_interface UsbScenario.phone)
             UsbScenario.adb_interface eq_refl).
  - apply (proj2 (getAdbInterface_returns_adb_interface UsbScenario.locked_phone)).
    intros ifaces iface E Hin. inversion E; subst ifaces.
    destruct Hin as [<-|[]]. simpl. intros (_ & Hc & _). discriminate Hc.
Defined.

(** C9: [findAdbDevices] throws when the device list is empty, and throws
    when no device on the list both has an allowed vendor id and exposes an
    ADB interface (the error being "No ADB devices found." when every device
    has a descriptor and opens); the only devices it ever opens or talks to
    are those whose vendor id is on the allow-list. *)
Theorem findAdbDevices_failures_and_probes
    (USB_VENDOR_IDS : list Z) (usbDevices : list Usb.Device) :
  (usbDevices = [] ->
   Usb.findAdbDevices USB_VENDOR_IDS usbDevices =
     (Throw (Error "No USB devices found."), [])) /\
  ((forall d, In d usbDevices ->
      ~ (Usb.vendor_allowed USB_VENDOR_IDS d /\ Usb.exposes_adb_interface d)) ->
   (exists e, fst (Usb.findAdbDevices USB_VENDOR_IDS usbDevices) = Throw e) /\
   (usbDevices <> [] ->
    (forall d, In d usbDevices ->
       Usb.deviceDescriptor d <> None /\ Usb.on_open d = Normal tt) ->
    fst (Usb.findAdbDevices USB_VENDOR_IDS usbDevices) =
      Throw (Error "No ADB devices found."))) /\
  Forall (fun c => Usb.vendor_allowed USB_VENDOR_IDS (Usb.called_on c))
    (snd (Usb.findAdbDevices USB_VENDOR_IDS usbDevices)).
Proof.
  unfold Usb.findAdbDevices. split; [|split].
  - intros ->. reflexivity.
  - intros Hno. split.
    + destruct usbDevices as [|d rest]; [simpl; eauto|].
      cbn [List.length]. rewrite Nat2Z.inj_succ.
      destruct (Z.eqb_spec (Z.succ (Z.of_nat (List.length rest))) 0); [lia|].
      pose proof (@scan_no_match USB_VENDOR_IDS (d :: rest) Hno []) as Hm.
      destruct (Usb.scan USB_VENDOR_IDS (d :: rest) []) as [[found|e] calls];
        simpl in *; [subst found; simpl|]; eauto.
    + intros Hne Hok.
      destruct usbDevices as [|d rest]; [congruence|].
      cbn [List.length]. rewrite Nat2Z.inj_succ.
      destruct (Z.eqb_spec (Z.succ (Z.of_nat (List.length rest))) 0); [lia|].
      pose proof (@scan_no_match_normal USB_VENDOR_IDS (d :: rest) Hno Hok []) as Hm.
      destruct (Usb.scan USB_VENDOR_IDS (d :: rest) []) as [r calls].
      simpl in Hm. subst r. reflexivity.
  - destruct (Z.of_nat (List.length usbDevices) =? 0); [constructor|].
    pose proof (@scan_calls USB_VENDOR_IDS usbDevices []) as Hc.
    destruct (Usb.scan USB_VENDOR_IDS usbDevices []) as [[found|e] calls];
      simpl in *; [|exact Hc].
    destruct (Z.of_nat (List.length found) =? 0); exact Hc.
Qed.

(** A bus with a keyboard and a locked phone: the keyboard is skipped
    unopened, the phone is opened and has no ADB interface, and the caller
    gets "No ADB devices found.".  An empty bus gives "No USB devices
    found.". *)
Lemma findAdbDevices_failures_and_probes_witness :
  Usb.findAdbDevices UsbScenario.vendor_ids [] =
    (Throw (Error "No USB devices found."), []) /\
  Usb.findAdbDevices UsbScenario.vendor_ids
      [UsbScenario.keyboard; UsbScenario.locked_phone] =
    (Throw (Error "No ADB devices found."),
     [Usb.call_open UsbScenario.locked_phone]) /\
  fst (Usb.findAdbDevices UsbScenario.vendor_ids
         [UsbScenario.keyboard; UsbScenario.locked_phone]) =
    Throw (Error "No ADB devices found.").
Proof.
  split; [|split; [reflexivity|]].
  - apply (proj1 (findAdbDevices_failures_and_probes UsbScenario.vendor_ids [])).
    reflexivity.
  - apply (proj1 (proj2 (findAdbDevices_failures_and_probes UsbScenario.vendor_ids
                           [UsbScenario.keyboard; UsbScenario.locked_phone]))).
    + intros d [<-|[<-|[]]] [(dd & Hd & Hin) (ifaces & iface & Hi & Hif & Ha)].
      * inversion Hd; subst dd. simpl in Hin. lia.
      * inversion Hi; subst ifaces. destruct Hif as [<-|[]]. discriminate Ha.
    + discriminate.
    + intros d [<-|[<-|[]]]; split; simpl; congruence.
Defined.

(** On a bus with a phone that has debugging enabled, discovery returns the
    phone with its ADB interface and serial number "AB". *)
Example findAdbDevices_phone :
  Usb.findAdbDevices UsbScenario.vendor_ids
      [UsbScenario.keyboard; UsbScenario.phone] =
    (Normal [Usb.mkAdbDevice UsbScenario.phone UsbScenario.adb_interface [65; 66]],
     [Usb.call_open UsbScenario.phone;
      Usb.call_open UsbScenario.phone;
      Usb.call_controlTransfer UsbScenario.phone 0x80 0x06 0x0303 0x0409 255;
      Usb.call_close UsbScenario.phone]).
Proof. reflexivity. Qed.

(** * The handshake end to end, on the scripted transport *)

(** The modelled [waitForAuth] hands over an AUTH(TOKEN) and answers [false]
    to every other message, a CNXN included. *)
Lemma ADBDevice_waitForAuth_reply (p : Packet) (rest : list (Completion Packet))
    (tx : list (Completion unit)) (log : list Wire.Event) :
  fst (ADBDevice_waitForAuth (Wire.mk tx (Normal p :: rest) log)) =
    Normal (if (command p =? CMD_AUTH) && (arg0 p =? TOKEN)
            then pv_packet p else pv_false).
Proof.
  unfold ADBDevice_waitForAuth, bind, ret. simpl.
  destruct ((command p =? CMD_AUTH) && (arg0 p =? TOKEN)); reflexivity.
Qed.

(** The modelled [sendSignedToken] succeeds on a CNXN and on nothing else. *)
Lemma ADBDevice_sendSignedToken_reply (sign : Bytes -> Bytes) (token : Bytes)
    (p : Packet) (rest : list (Completion Packet)) (log : list Wire.Event) :
  fst (ADBDevice_sendSignedToken sign (Some token)
         (Wire.mk [] (Normal p :: rest) log)) =
    Normal (command p =? CMD_CNXN).
Proof. reflexivity. Qed.

(** Trusted first use: the device challenges with AUTH(TOKEN), the host
    answers AUTH(SIGNATURE) and the device accepts with CNXN. *)
Example connect_trusted_first_use :
  @connect Wire.t string (ADBDevice_handshake Scenario.sign Scenario.public_key) 4
      (mkADB NOT_CONNECTED
         (Wire.receiving [Scenario.token_packet; Scenario.cnxn_packet])) =
    (Returned
       (mkADB CONNECTED
          (Wire.mk [] []
             [Wire.Sent CMD_CNXN CONNECT_VERSION CONNECT_MAXDATA CONNECT_PAYLOAD;
              Wire.Received Scenario.token_packet;
              Wire.Sent CMD_AUTH SIGNATURE 0 (data Scenario.token_packet);
              Wire.Received Scenario.cnxn_packet])),
     [call_initConnection; call_waitForAuth;
      call_sendSignedToken (Some (data Scenario.token_packet))]).
Proof. reflexivity. Qed.

(** Untrusted, then approved: the signature is answered with a second
    AUTH(TOKEN), the public key with CNXN. *)
Example connect_untrusted_then_approved :
  fst (@connect Wire.t string
         (ADBDevice_handshake Scenario.sign Scenario.public_key) 5
         (mkADB NOT_CONNECTED
            (Wire.receiving [Scenario.token_packet; Scenario.token_packet;
                             Scenario.cnxn_packet]))) =
    Returned
      (mkADB CONNECTED
         (Wire.mk [] []
            [Wire.Sent CMD_CNXN CONNECT_VERSION CONNECT_MAXDATA CONNECT_PAYLOAD;
             Wire.Received Scenario.token_packet;
             Wire.Sent CMD_AUTH SIGNATURE 0 (data Scenario.token_packet);
             Wire.Received Scenario.token_packet;
             Wire.Sent CMD_AUTH RSAPUBLICKEY 0
               (Scenario.public_key ++ String zero EmptyString)%string;
             Wire.Received Scenario.cnxn_packet])).
Proof. reflexivity. Qed.

(** A device without authentication answers the host's CNXN with its own:
    the modelled [waitForAuth] answers [false] and the handshake starts over
    instead of finishing. *)
Example connect_cnxn_without_auth :
  @connect_loop Wire.t string
      (ADBDevice_handshake Scenario.sign Scenario.public_key) 2 pv_undefined
      (mkADB NOT_CONNECTED (Wire.receiving [Scenario.cnxn_packet])) =
    (Running pv_false
       (mkADB NOT_CONNECTED
          (Wire.mk [] []
             [Wire.Sent CMD_CNXN CONNECT_VERSION CONNECT_MAXDATA CONNECT_PAYLOAD;
              Wire.Received Scenario.cnxn_packet])),
     [call_initConnection; call_waitForAuth]).
Proof. reflexivity. Qed.

(** * Further properties of [connect], [runCommand] and [closeConnection] *)

Section HandshakeFacts.
Context {D Cmd : Type} {handshake : ADBHandshake D}.

Local Abbreviation step := (@connect_step D Cmd handshake).
Local Abbreviation loop := (@connect_loop D Cmd handshake).

(** What a turn calls, by the state it is taken in, and the state it leaves. *)
Lemma connect_step_calls (pkt : PacketVar) (a : ADB D) :
  match step pkt a with
  | (Continue _ a', []) => unrecognised (state a) /\ state a' = NOT_CONNECTED
  | (Continue _ a', [c]) =>
      expected_call (state a) c = true /\ left_by c (state a') = true
  | (Return a', []) => a' = a /\ state a = CONNECTED
  | (Raise e a', []) =>
      a' = a /\ state a = SEND_PRIVATE_KEY /\ is_timeout e = false
  | (Raise e a', [c]) =>
      expected_call (state a) c = true /\ state a' = state a /\
      (is_timeout e = true -> state a = NOT_CONNECTED)
  | _ => False
  end.
Proof.
  unfold connect_step, on_error, packet_data. destruct pkt; simpl;
  repeat match goal with
  | |- context [Z.eqb ?x ?y] => destruct (Z.eqb_spec x y)
  | |- context [initConnection ?d] => destruct (initConnection d) as [[[]|?] ?]
  | |- context [waitForAuth ?d] => destruct (waitForAuth d) as [[[| |?]|?] ?]
  | |- context [sendSignedToken ?t ?d] => destruct (sendSignedToken t d) as [[[|]|?] ?]
  | |- context [sendPublicKey ?d] => destruct (sendPublicKey d) as [[[|]|?] ?]
  | |- context [is_timeout ?e] => destruct (is_timeout e) eqn:?
  end; simpl;
  repeat match goal with H : state a = _ |- _ => rewrite H end;
  try match goal with
      | H : is_timeout (TypeError _) = true |- _ => discriminate H
      end;
  unfold unrecognised; intuition (try reflexivity; try congruence).
Qed.

Lemma left_by_may_follow (c c2 : DeviceCall Cmd) (s : Z) :
  left_by c s = true -> expected_call s c2 = true -> may_follow c c2 = true.
Proof.
  destruct c; simpl; intros H; try discriminate;
    repeat (apply orb_true_iff in H; destruct H as [H|H]);
    apply Z.eqb_eq in H; subst s;
    destruct c2; simpl; intros E; try discriminate; reflexivity.
Qed.

Lemma connect_loop_order (fuel : nat) :
  forall (pkt : PacketVar) (a : ADB D),
    handshake_order (state a) (snd (loop fuel pkt a)) = true.
Proof.
  induction fuel as [|fuel IH]; intros pkt a; simpl; [reflexivity|].
  pose proof (connect_step_calls pkt a) as Hs.
  destruct (step pkt a) as [[pkt1 a1|a1|e a1] [|c [|c' calls]]]; try contradiction.
  - destruct Hs as [Hu Hn]. specialize (IH pkt1 a1).
    destruct (loop fuel pkt1 a1) as [o rest]. simpl in *.
    rewrite Hn in IH. destruct rest as [|c2 rest]; [reflexivity|].
    simpl in *. apply andb_true_iff in IH. destruct IH as [He Ho].
    rewrite Ho, andb_true_r.
    destruct c2; simpl in *; try discriminate.
    assert (Hb : unrecognised_b (state a) = true).
    { destruct Hu as (H0 & H1 & H2 & H3 & H4). unfold unrecognised_b.
      apply Z.eqb_neq in H0, H1, H2, H3, H4. rewrite H0, H1, H2, H3, H4.
      reflexivity. }
    rewrite Hb. apply orb_true_r.
  - destruct Hs as [He Hl]. specialize (IH pkt1 a1).
    destruct (loop fuel pkt1 a1) as [o rest]. simpl in *.
    rewrite He. simpl. destruct rest as [|c2 rest]; [reflexivity|].
    simpl in *. apply andb_true_iff in IH. destruct IH as [He2 Ho].
    rewrite Ho, andb_true_r. exact (left_by_may_follow _ _ _ Hl He2).
  - reflexivity.
  - reflexivity.
  - simpl. destruct Hs as [He _]. rewrite He. reflexivity.
Qed.

End HandshakeFacts.

Section HandshakeTraces.
Context {D Cmd : Type} {handshake : ADBHandshake D}.

Local Abbreviation step := (@connect_step D Cmd handshake).
Local Abbreviation loop := (@connect_loop D Cmd handshake).

Lemma expected_call_connected (c : DeviceCall Cmd) :
  expected_call CONNECTED c = false.
Proof. destruct c; reflexivity. Qed.

Lemma expected_call_not_connected (c : DeviceCall Cmd) :
  expected_call NOT_CONNECTED c = true -> c = call_initConnection.
Proof. destruct c; simpl; intros E; try discriminate; reflexivity. Qed.

Lemma expected_is_handshake (s : Z) (c : DeviceCall Cmd) :
  expected_call s c = true -> is_handshake_call c = true.
Proof. destruct c; simpl; intros E; try discriminate; reflexivity. Qed.

Lemma connect_loop_connected (fuel : nat) (pkt : PacketVar) (a : ADB D) :
  state a = CONNECTED -> loop (S fuel) pkt a = (Returned a, []).
Proof. intros Hs. simpl. unfold connect_step. rewrite Hs. reflexivity. Qed.

Lemma connect_loop_handshake_calls (fuel : nat) :
  forall (pkt : PacketVar) (a : ADB D),
    Forall (fun c => is_handshake_call c = true) (snd (loop fuel pkt a)).
Proof.
  induction fuel as [|fuel IH]; intros pkt a; simpl; [constructor|].
  pose proof (connect_step_calls (Cmd := Cmd) pkt a) as Hs.
  destruct (step pkt a) as [[pkt1 a1|a1|e a1] [|c [|c' calls]]]; try contradiction;
    simpl; try constructor;
    try (specialize (IH pkt1 a1); destruct (loop fuel pkt1 a1) as [o rest];
         simpl in *; try constructor; try exact IH);
    try constructor;
    try (destruct Hs as [He _]; exact (expected_is_handshake _ _ He)).
Qed.

Lemma connect_loop_threw (fuel : nat) :
  forall (pkt : PacketVar) (a a' : ADB D) e calls,
    loop fuel pkt a = (Threw e a', calls) ->
    state a' <> CONNECTED /\
    (is_timeout e = true ->
     state a' = NOT_CONNECTED /\ exists pre, calls = pre ++ [call_initConnection]).
Proof.
  induction fuel as [|fuel IH]; intros pkt a a' e calls; simpl; [discriminate|].
  pose proof (connect_step_calls (Cmd := Cmd) pkt a) as Hs.
  destruct (step pkt a) as [[pkt1 a1|a1|e1 a1] [|c [|c' calls1]]]; try contradiction;
    try discriminate.
  - destruct (loop fuel pkt1 a1) as [o rest] eqn:El. intros E; inversion E; subst.
    destruct (IH _ _ _ _ _ El) as [Hc Ht]. split; [exact Hc|].
    intros Hto. destruct (Ht Hto) as [Hn [pre Hp]]. split; [exact Hn|].
    exists pre. exact Hp.
  - destruct (loop fuel pkt1 a1) as [o rest] eqn:El. intros E; inversion E; subst.
    destruct (IH _ _ _ _ _ El) as [Hc Ht]. split; [exact Hc|].
    intros Hto. destruct (Ht Hto) as [Hn [pre Hp]]. split; [exact Hn|].
    exists (c :: pre). simpl. rewrite Hp. reflexivity.
  - intros E; inversion E; subst. destruct Hs as (-> & Hs & Ht).
    split; [rewrite Hs; discriminate|]. intros Hto. congruence.
  - intros E; inversion E; subst. destruct Hs as (He & Hs & Ht).
    split.
    + rewrite Hs. intros Hc. rewrite Hc, expected_call_connected in He. discriminate.
    + intros Hto. specialize (Ht Hto). split; [congruence|].
      rewrite Ht in He. apply expected_call_not_connected in He. subst c.
      exists []. reflexivity.
Qed.

Lemma connect_loop_returned_last (fuel : nat) :
  forall (pkt : PacketVar) (a a' : ADB D) calls,
    loop fuel pkt a = (Returned a', calls) ->
    state a <> CONNECTED ->
    exists pre c, calls = pre ++ [c] /\ accepting c = true.
Proof.
  induction fuel as [|fuel IH]; intros pkt a a' calls; simpl; [discriminate|].
  pose proof (connect_step_calls (Cmd := Cmd) pkt a) as Hs.
  destruct (step pkt a) as [[pkt1 a1|a1|e1 a1] [|c [|c' calls1]]]; try contradiction;
    try discriminate.
  - destruct (loop fuel pkt1 a1) as [o rest] eqn:El. intros E Hn; inversion E; subst.
    destruct Hs as [_ Hs]. apply (IH _ _ _ _ El). rewrite Hs. discriminate.
  - destruct (loop fuel pkt1 a1) as [o rest] eqn:El. intros E Hn; inversion E; subst.
    destruct Hs as [_ Hl].
    destruct (Z.eq_dec (state a1) CONNECTED) as [Hc|Hc].
    + destruct fuel as [|fuel]; [discriminate|].
      rewrite (connect_loop_connected fuel pkt1 _ Hc) in El. inversion El; subst.
      exists [], c. split; [reflexivity|].
      rewrite Hc in Hl. destruct c; simpl in *; try discriminate; reflexivity.
    + destruct (IH _ _ _ _ El Hc) as (pre & c' & Hp & Ha).
      exists (c :: pre), c'. rewrite Hp. auto.
  - intros E Hn. destruct Hs as [_ Hs]. contradiction.
Qed.

Lemma ordered_predecessor (l : list (DeviceCall Cmd)) :
  forall p c,
    ordered p l = true -> In c l ->
    exists q, In q (p :: l) /\ may_follow q c = true.
Proof.
  induction l as [|x l IH]; intros p c Ho Hin; simpl in *; [contradiction|].
  apply andb_true_iff in Ho. destruct Ho as [Hm Ho].
  destruct Hin as [->|Hin].
  - exists p. auto.
  - destruct (IH x c Ho Hin) as (q & Hq & Hf). exists q. simpl in Hq. tauto.
Qed.

(** The only turns that leave the state CONNECTED: a [sendSignedToken] or a
    [sendPublicKey] that the device answered with true. *)
Lemma connect_step_to_connected
    (pkt pkt' : PacketVar) (a a' : ADB D) (calls : list (DeviceCall Cmd)) :
  step pkt a = (Continue pkt' a', calls) ->
  state a' = CONNECTED ->
  (state a = SEND_PRIVATE_KEY /\
   exists token,
     packet_data pkt = Normal token /\
     sendSignedToken token (device a) = (Normal true, device a') /\
     calls = [call_sendSignedToken token]) \/
  (state a = SEND_PUBLIC_KEY /\
   sendPublicKey (device a) = (Normal true, device a') /\
   calls = [call_sendPublicKey]).
Proof.
  unfold connect_step, on_error.
  destruct (Z.eqb_spec (state a) NOT_CONNECTED) as [H0|H0].
  { destruct (initConnection (device a)) as [[[]|e] d];
      intros E; inversion E; subst; simpl; discriminate. }
  destruct (Z.eqb_spec (state a) WAIT_FOR_AUTH) as [H1|H1].
  { destruct (waitForAuth (device a)) as [[[| |p]|e] d];
      try destruct (is_timeout e);
      intros E; inversion E; subst; simpl; discriminate. }
  destruct (Z.eqb_spec (state a) SEND_PRIVATE_KEY) as [H2|H2].
  { destruct (packet_data pkt) as [token|e] eqn:Hp.
    - destruct (sendSignedToken token (device a)) as [[[|]|e] d] eqn:Hk;
        try destruct (is_timeout e);
        intros E; inversion E; subst; simpl; try discriminate.
      intros _. left. split; [exact H2|]. exists token. auto.
    - destruct (is_timeout e); intros E; inversion E; subst; simpl; discriminate. }
  destruct (Z.eqb_spec (state a) SEND_PUBLIC_KEY) as [H3|H3].
  { destruct (sendPublicKey (device a)) as [[[|]|e] d] eqn:Hk;
      try destruct (is_timeout e);
      intros E; inversion E; subst; simpl; try discriminate.
    intros _. right. auto. }
  destruct (Z.eqb_spec (state a) CONNECTED) as [H4|H4]; [discriminate|].
  intros E; inversion E; subst; simpl; discriminate.
Qed.

(** A [connect] that returns got there by such a turn, taken after the turns
    that made the calls before the last. *)
Lemma connect_loop_returned_accepted (fuel : nat) :
  forall (pkt : PacketVar) (a a' : ADB D) calls,
    loop fuel pkt a = (Returned a', calls) ->
    state a <> CONNECTED ->
    exists (n : nat) (pkt1 : PacketVar) (a1 : ADB D) pre,
      loop n pkt a = (Running pkt1 a1, pre) /\
      ((state a1 = SEND_PRIVATE_KEY /\
        exists token,
          packet_data pkt1 = Normal token /\
          sendSignedToken token (device a1) = (Normal true, device a') /\
          calls = pre ++ [call_sendSignedToken token]) \/
       (state a1 = SEND_PUBLIC_KEY /\
        sendPublicKey (device a1) = (Normal true, device a') /\
        calls = pre ++ [call_sendPublicKey])).
Proof.
  induction fuel as [|fuel IH]; intros pkt a a' calls; simpl; [discriminate|].
  destruct (step pkt a) as [[pkt0 a0|a0|e0 a0] calls0] eqn:Es; try discriminate.
  - destruct (loop fuel pkt0 a0) as [o rest] eqn:El.
    intros E Hn; inversion E; subst.
    destruct (Z.eq_dec (state a0) CONNECTED) as [Hc|Hc].
    + destruct fuel as [|fuel]; [discriminate|].
      rewrite (connect_loop_connected fuel pkt0 _ Hc) in El. inversion El; subst.
      exists 0%nat, pkt, a, []. split; [reflexivity|].
      rewrite app_nil_r.
      destruct (connect_step_to_connected _ _ Es Hc)
        as [(H2 & token & Hp & Hk & ->)|(H3 & Hk & ->)]; [left|right]; eauto.
    + destruct (IH _ _ _ _ El Hc) as (n & pkt1 & a1 & pre & Hrun & Hacc).
      exists (S n), pkt1, a1, (calls0 ++ pre). split.
      * simpl. rewrite Es, Hrun. reflexivity.
      * destruct Hacc as [(H2 & token & Hp & Hk & ->)|(H3 & Hk & ->)];
          [left|right]; rewrite app_assoc; eauto.
  - intros E Hn. apply connect_step_return in Es. destruct Es as (_ & Hs & _).
    contradiction.
Qed.

End HandshakeTraces.

Section ConnectExtras.
Context {D Cmd Out : Type}.
Context {handshake : ADBHandshake D} {session : ADBSession D Cmd Out}.

Local Abbreviation step := (@connect_step D Cmd handshake).
Local Abbreviation loop := (@connect_loop D Cmd handshake).

(** X1: once [connect] has returned, calling it again on the object it left
    returns at once: no call is made on the device and nothing changes. *)
Theorem connect_again_is_immediate
    (fuel fuel' : nat) (a a' : ADB D) (calls : list (DeviceCall Cmd)) :
  connect fuel a = (Returned a', calls) ->
  connect (Cmd := Cmd) (S fuel') a' = (Returned a', []).
Proof.
  intros E. apply connect_loop_returned in E.
  unfold connect. apply connect_loop_connected. exact E.
Qed.

(** X2: [connect] only ever calls the four handshake methods of the device;
    it never opens a command stream and never closes the connection. *)
Theorem connect_makes_only_handshake_calls (fuel : nat) (a : ADB D) :
  Forall (fun c => is_handshake_call c = true)
    (snd (connect (Cmd := Cmd) fuel a)) /\
  (forall c, ~ In (call_open c) (snd (connect (Cmd := Cmd) fuel a))) /\
  ~ In call_closeConnection (snd (connect (Cmd := Cmd) fuel a)).
Proof.
  pose proof (connect_loop_handshake_calls (Cmd := Cmd) fuel pv_undefined a) as H.
  split; [exact H|]. rewrite Forall_forall in H. split.
  - intros c Hin. specialize (H _ Hin). discriminate.
  - intros Hin. specialize (H _ Hin). discriminate.
Qed.

(** X3: [connect] entered in state SEND_PRIVATE_KEY, as an earlier call leaves
    it when [sendSignedToken] failed, throws a TypeError before any call on
    the device and leaves the object as it is, so that every later call does
    the same: the challenge packet was a local of the call that failed. *)
Theorem connect_without_challenge_throws (fuel : nat) (a : ADB D) :
  state a = SEND_PRIVATE_KEY ->
  connect (Cmd := Cmd) (S fuel) a =
    (Threw (TypeError "Cannot read property 'data' of undefined") a, []).
Proof.
  intros Hs. unfold connect. simpl. unfold connect_step. rewrite Hs. reflexivity.
Qed.

(** X4: when [connect] throws, the state it leaves is never CONNECTED, so
    that [runCommand] then refuses without touching the device; and a timeout
    is thrown only by [initConnection], with the state NOT_CONNECTED. *)
Theorem connect_throws_unconnected
    (fuel : nat) (a a' : ADB D) (e : JsError) (calls : list (DeviceCall Cmd)) :
  connect fuel a = (Threw e a', calls) ->
  state a' <> CONNECTED /\
  (forall c : Cmd,
      runCommand c a' =
        (Throw (Error "State is not CONNECTED, cannot run a command."), a', [])) /\
  (is_timeout e = true ->
   state a' = NOT_CONNECTED /\ exists pre, calls = pre ++ [call_initConnection]).
Proof.
  intros E. destruct (connect_loop_threw _ _ _ E) as [Hc Ht].
  split; [exact Hc|]. split; [|exact Ht].
  intros c. unfold runCommand.
  destruct (Z.eqb_spec (state a') CONNECTED); [contradiction|reflexivity].
Qed.

(** X5: the calls of [connect] come in handshake order.  The first is the one
    the entry state asks for; [waitForAuth] comes only right after
    [initConnection], [sendSignedToken] only right after [waitForAuth],
    [sendPublicKey] only right after [sendSignedToken], and a new
    [initConnection] only after one of these three. *)
Theorem connect_call_order (fuel : nat) (a : ADB D) :
  handshake_order (state a) (snd (connect (Cmd := Cmd) fuel a)) = true.
Proof. apply connect_loop_order. Qed.

(** X6: a [connect] entered in NOT_CONNECTED that returns has called
    [initConnection], [waitForAuth] and [sendSignedToken], and its last call
    is the [sendSignedToken] or [sendPublicKey] that the device accepted:
    the run reached SEND_PRIVATE_KEY or SEND_PUBLIC_KEY with the calls before
    the last made, and there the device answered that call with true,
    leaving the device of the object returned. *)
Theorem connect_success_needs_acceptance
    (fuel : nat) (a a' : ADB D) (calls : list (DeviceCall Cmd)) :
  state a = NOT_CONNECTED ->
  connect fuel a = (Returned a', calls) ->
  In call_initConnection calls /\
  In call_waitForAuth calls /\
  (exists token, In (call_sendSignedToken token) calls) /\
  (exists pre c, calls = pre ++ [c] /\ accepting c = true) /\
  (exists (n : nat) (pkt1 : PacketVar) (a1 : ADB D) pre,
      connect n a = (Running pkt1 a1, pre) /\
      ((state a1 = SEND_PRIVATE_KEY /\
        exists token,
          packet_data pkt1 = Normal token /\
          sendSignedToken token (device a1) = (Normal true, device a') /\
          calls = pre ++ [call_sendSignedToken token]) \/
       (state a1 = SEND_PUBLIC_KEY /\
        sendPublicKey (device a1) = (Normal true, device a') /\
        calls = pre ++ [call_sendPublicKey]))).
Proof.
  intros Hs E.
  assert (Hacc : exists (n : nat) (pkt1 : PacketVar) (a1 : ADB D) pre,
      connect n a = (Running pkt1 a1, pre) /\
      ((state a1 = SEND_PRIVATE_KEY /\
        exists token,
          packet_data pkt1 = Normal token /\
          sendSignedToken token (device a1) = (Normal true, device a') /\
          calls = pre ++ [call_sendSignedToken token]) \/
       (state a1 = SEND_PUBLIC_KEY /\
        sendPublicKey (device a1) = (Normal true, device a') /\
        calls = pre ++ [call_sendPublicKey]))).
  { unfold connect in *. apply (connect_loop_returned_accepted _ _ _ E).
    rewrite Hs. discriminate. }
  pose proof (connect_loop_order (Cmd := Cmd) fuel pv_undefined a) as Ho.
  unfold connect in E. rewrite E, Hs in Ho. simpl in Ho.
  destruct (connect_loop_returned_last _ _ _ E) as (pre & c & Hp & Ha);
    [rewrite Hs; discriminate|].
  assert (Hin : In c calls) by (rewrite Hp; apply in_or_app; simpl; auto).
  destruct calls as [|h rest]; [contradiction|].
  simpl in Ho. apply andb_true_iff in Ho. destruct Ho as [He Ho].
  apply expected_call_not_connected in He. subst h.
  assert (Hsigned : forall t, In (call_sendSignedToken t) rest ->
                              In call_waitForAuth rest).
  { intros t Ht. destruct (ordered_predecessor _ _ _ Ho Ht) as (q & Hq & Hf).
    destruct q; simpl in Hf; try discriminate.
    destruct Hq as [Hq|Hq]; [discriminate|exact Hq]. }
  assert (Hkey : In call_sendPublicKey rest ->
                 exists t, In (call_sendSignedToken t) rest).
  { intros Hk. destruct (ordered_predecessor _ _ _ Ho Hk) as (q & Hq & Hf).
    destruct q; simpl in Hf; try discriminate.
    destruct Hq as [Hq|Hq]; [discriminate|eauto]. }
  assert (Ht : exists t, In (call_sendSignedToken t) rest).
  { destruct Hin as [<-|Hin]; [discriminate|].
    destruct c; simpl in Ha; try discriminate; eauto. }
  destruct Ht as [t Ht].
  split; [simpl; auto|]. split; [simpl; right; eauto|].
  split; [exists t; simpl; auto|]. split; [exists pre, c; auto|].
  exact Hacc.
Qed.

(** X7: the token [connect] has signed is the one of the challenge just
    received: after a [waitForAuth] that resolves to a packet, the next turn
    calls [sendSignedToken] with that packet's [data], on the device as
    [waitForAuth] left it. *)
Theorem connect_signs_the_challenge
    (pkt : PacketVar) (a : ADB D) (p : Packet) (d' : D) :
  state a = WAIT_FOR_AUTH ->
  waitForAuth (device a) = (Normal (pv_packet p), d') ->
  step pkt a =
    (Continue (pv_packet p) (mkADB SEND_PRIVATE_KEY d'), [call_waitForAuth]) /\
  forall fuel : nat,
    loop (S (S fuel)) pkt a =
      match sendSignedToken (Some (data p)) d' with
      | (Normal true, d'') =>
          (fst (loop fuel (pv_packet p) (mkADB CONNECTED d'')),
           call_waitForAuth :: call_sendSignedToken (Some (data p))
             :: snd (loop fuel (pv_packet p) (mkADB CONNECTED d'')))
      | (Normal false, d'') =>
          (fst (loop fuel (pv_packet p) (mkADB SEND_PUBLIC_KEY d'')),
           call_waitForAuth :: call_sendSignedToken (Some (data p))
             :: snd (loop fuel (pv_packet p) (mkADB SEND_PUBLIC_KEY d'')))
      | (Throw e, d'') =>
          if is_timeout e
          then (fst (loop fuel (pv_packet p) (mkADB NOT_CONNECTED d'')),
                call_waitForAuth :: call_sendSignedToken (Some (data p))
                  :: snd (loop fuel (pv_packet p) (mkADB NOT_CONNECTED d'')))
          else (Threw e (mkADB SEND_PRIVATE_KEY d''),
                [call_waitForAuth; call_sendSignedToken (Some (data p))])
      end.
Proof.
  intros Hs Hw.
  assert (Es : step pkt a =
               (Continue (pv_packet p) (mkADB SEND_PRIVATE_KEY d'), [call_waitForAuth])).
  { unfold connect_step. rewrite Hs, Hw. reflexivity. }
  split; [exact Es|]. intros fuel.
  erewrite connect_loop_continue by exact Es.
  simpl. unfold connect_step, on_error. simpl.
  destruct (sendSignedToken (Some (data p)) d') as [[[|]|e] d'']; simpl;
    try (destruct (loop fuel _ _); reflexivity).
  destruct (is_timeout e); simpl; [|reflexivity].
  destruct (loop fuel _ _); reflexivity.
Qed.

(** X8: once [closeConnection] has resolved the object is not CONNECTED:
    [runCommand] refuses without touching the device, and a second
    [closeConnection] does nothing. *)
Theorem closeConnection_disconnects
    (a a' : ADB D) (calls : list (DeviceCall Cmd)) :
  closeConnection a = (Normal tt, a', calls) ->
  state a' <> CONNECTED /\
  (state a = CONNECTED ->
   state a' = NOT_CONNECTED /\ calls = [call_closeConnection]) /\
  (forall c : Cmd,
      runCommand c a' =
        (Throw (Error "State is not CONNECTED, cannot run a command."), a', [])) /\
  closeConnection (Cmd := Cmd) a' = (Normal tt, a', []).
Proof.
  unfold closeConnection at 1.
  destruct (Z.eqb_spec (state a) CONNECTED) as [Hs|Hs].
  - destruct (dev_closeConnection (device a)) as [[[]|e] d]; [|discriminate].
    intros E; inversion E; subst. simpl.
    repeat split; try discriminate.
  - intros E; inversion E; subst.
    repeat split; try assumption; try contradiction.
    + intros c. unfold runCommand.
      destruct (Z.eqb_spec (state a') CONNECTED); [contradiction|reflexivity].
    + unfold closeConnection.
      destruct (Z.eqb_spec (state a') CONNECTED); [contradiction|reflexivity].
Qed.

(** X9: [closeConnection] throws only what the device's [closeConnection]
    threw, and then the object is still CONNECTED: the next [runCommand] is
    handed to the device. *)
Theorem closeConnection_failure_stays_connected
    (a a' : ADB D) (e : JsError) (calls : list (DeviceCall Cmd)) :
  closeConnection a = (Throw e, a', calls) ->
  state a = CONNECTED /\ state a' = CONNECTED /\
  dev_closeConnection (device a) = (Throw e, device a') /\
  calls = [call_closeConnection] /\
  forall c : Cmd, In (call_open c) (snd (runCommand c a')).
Proof.
  unfold closeConnection.
  destruct (Z.eqb_spec (state a) CONNECTED) as [Hs|Hs]; [|discriminate].
  destruct (dev_closeConnection (device a)) as [[[]|e'] d]; [discriminate|].
  intros E; inversion E; subst. simpl. repeat split; try assumption.
  intros c. unfold runCommand. simpl. rewrite Hs. simpl.
  destruct (open c d). simpl. auto.
Qed.

End ConnectExtras.

(** After the trusted first-use exchange, a second [connect] returns with no
    call made. *)
Lemma connect_again_is_immediate_witness :
  connect (Cmd := string) 4 (Scenario.fresh Scenario.trusted) =
    (Returned (mkADB CONNECTED Mock.silent),
     [call_initConnection; call_waitForAuth;
      call_sendSignedToken (Some (data Scenario.token_packet))]) /\
  connect (Cmd := string) 1 (mkADB CONNECTED Mock.silent) =
    (Returned (mkADB CONNECTED Mock.silent), []).
Proof.
  split; [reflexivity|].
  apply (@connect_again_is_immediate Mock.Device string Mock.handshake 4%nat 0%nat
           (Scenario.fresh Scenario.trusted) (mkADB CONNECTED Mock.silent)
           [call_initConnection; call_waitForAuth;
            call_sendSignedToken (Some (data Scenario.token_packet))]).
  reflexivity.
Defined.

(** A device that would accept the signature is never asked: the object was
    left in SEND_PRIVATE_KEY and the challenge is gone. *)
Lemma connect_without_challenge_throws_witness :
  connect (Cmd := string) 1 (Scenario.signing (Normal true)) =
    (Threw (TypeError "Cannot read property 'data' of undefined")
       (Scenario.signing (Normal true)), []).
Proof.
  apply (@connect_without_challenge_throws Mock.Device string Mock.handshake 0%nat
           (Scenario.signing (Normal true))).
  reflexivity.
Defined.

(** An I/O error while waiting for the challenge: [connect] throws it, and a
    command is then refused. *)
Lemma connect_throws_unconnected_witness :
  connect (Cmd := string) 2
      (Scenario.fresh (Mock.mkDevice [Normal tt] [Throw Scenario.io_error] [] [] [] [])) =
    (Threw Scenario.io_error (mkADB WAIT_FOR_AUTH Mock.silent),
     [call_initConnection; call_waitForAuth]) /\
  runCommand "shell:ls"%string (mkADB WAIT_FOR_AUTH Mock.silent) =
    (Throw (Error "State is not CONNECTED, cannot run a command."),
     mkADB WAIT_FOR_AUTH Mock.silent, []).
Proof.
  split; [reflexivity|].
  apply (proj1 (proj2 (@connect_throws_unconnected Mock.Device string string
                         Mock.handshake Mock.session 2%nat
                         (Scenario.fresh
                            (Mock.mkDevice [Normal tt] [Throw Scenario.io_error]
                               [] [] [] []))
                         (mkADB WAIT_FOR_AUTH Mock.silent) Scenario.io_error
                         [call_initConnection; call_waitForAuth] eq_refl))).
Defined.

(** The untrusted-then-approved exchange ends with the accepted public key,
    after the three calls every handshake makes. *)
Lemma connect_success_needs_acceptance_witness :
  connect (Cmd := string) 5 (Scenario.fresh Scenario.approved) =
    (Returned (mkADB CONNECTED Mock.silent),
     [call_initConnection; call_waitForAuth;
      call_sendSignedToken (Some (data Scenario.token_packet))] ++
     [call_sendPublicKey]) /\
  In (call_waitForAuth (Cmd := string))
    [call_initConnection; call_waitForAuth;
     call_sendSignedToken (Some (data Scenario.token_packet)); call_sendPublicKey].
Proof.
  split; [reflexivity|].
  apply (@connect_success_needs_acceptance Mock.Device string Mock.handshake 5%nat
           (Scenario.fresh Scenario.approved) (mkADB CONNECTED Mock.silent)
           [call_initConnection; call_waitForAuth;
            call_sendSignedToken (Some (data Scenario.token_packet));
            call_sendPublicKey]
           eq_refl eq_refl).
Defined.

(** The challenge of the scripted device is what is signed next. *)
Lemma connect_signs_the_challenge_witness :
  connect_step (Cmd := string) pv_undefined
      (Scenario.awaiting_auth (Normal (pv_packet Scenario.token_packet))) =
    (Continue (pv_packet Scenario.token_packet)
       (mkADB SEND_PRIVATE_KEY Mock.silent), [call_waitForAuth]).
Proof.
  apply (proj1 (@connect_signs_the_challenge Mock.Device string Mock.handshake
                  pv_undefined
                  (Scenario.awaiting_auth (Normal (pv_packet Scenario.token_packet)))
                  Scenario.token_packet Mock.silent eq_refl eq_refl)).
Defined.

(** Closing a connected device, then trying a command. *)
Lemma closeConnection_disconnects_witness :
  closeConnection (Cmd := string) (mkADB CONNECTED Scenario.ready) =
    (Normal tt,
     mkADB NOT_CONNECTED (Mock.mkDevice [] [] [] [] [Normal "hello"%string] []),
     [call_closeConnection]) /\
  runCommand "shell:ls"%string
      (mkADB NOT_CONNECTED (Mock.mkDevice [] [] [] [] [Normal "hello"%string] [])) =
    (Throw (Error "State is not CONNECTED, cannot run a command."),
     mkADB NOT_CONNECTED (Mock.mkDevice [] [] [] [] [Normal "hello"%string] []), []).
Proof.
  split; [reflexivity|].
  apply (proj1 (proj2 (proj2
           (@closeConnection_disconnects Mock.Device string string Mock.session
              (mkADB CONNECTED Scenario.ready)
              (mkADB NOT_CONNECTED
                 (Mock.mkDevice [] [] [] [] [Normal "hello"%string] []))
              [call_closeConnection] eq_refl)))).
Defined.

(** A device that fails to close: the error comes out and the object is
    still CONNECTED. *)
Lemma closeConnection_failure_stays_connected_witness :
  closeConnection (Cmd := string)
      (mkADB CONNECTED
         (Mock.mkDevice [] [] [] [] [Normal "hello"%string] [Throw Scenario.io_error])) =
    (Throw Scenario.io_error,
     mkADB CONNECTED (Mock.mkDevice [] [] [] [] [Normal "hello"%string] []),
     [call_closeConnection]) /\
  state (mkADB CONNECTED
           (Mock.mkDevice [] [] [] [] [Normal "hello"%string] [])) = CONNECTED.
Proof.
  split; [reflexivity|].
  apply (proj1 (proj2
           (@closeConnection_failure_stays_connected Mock.Device string string
              Mock.session
              (mkADB CONNECTED
                 (Mock.mkDevice [] [] [] [] [Normal "hello"%string]
                    [Throw Scenario.io_error]))
              (mkADB CONNECTED
                 (Mock.mkDevice [] [] [] [] [Normal "hello"%string] []))
              Scenario.io_error [call_closeConnection] eq_refl))).
Defined.

Section ConstructorFacts.
Context {D CT Dev Cmd Out : Type}.
Context {handshake : ADBHandshake D} {session : ADBSession D Cmd Out}.
Variable USB TCP : CT.
Variable same : CT -> CT -> bool.
Variable new_ADBDevice : CT -> Dev -> Completion D.

(** X10: the constructor yields an object only for the connection types USB
    and TCP, and the object starts NOT_CONNECTED: [runCommand] refuses,
    [closeConnection] does nothing, and the first call [connect] makes on
    the device is [initConnection]. *)
Theorem new_ADB_starts_not_connected (connectionType : CT) (dev : Dev) (a : ADB D) :
  new_ADB USB TCP same new_ADBDevice connectionType dev = Normal a ->
  (same connectionType USB = true \/ same connectionType TCP = true) /\
  new_ADBDevice connectionType dev = Normal (device a) /\
  state a = NOT_CONNECTED /\
  (forall c : Cmd,
      runCommand c a =
        (Throw (Error "State is not CONNECTED, cannot run a command."), a, [])) /\
  closeConnection (Cmd := Cmd) a = (Normal tt, a, []) /\
  (forall fuel : nat,
      match snd (connect (Cmd := Cmd) fuel a) with
      | [] => True
      | c :: _ => c = call_initConnection
      end).
Proof.
  unfold new_ADB.
  destruct (same connectionType USB || same connectionType TCP) eqn:Hct;
    [|discriminate].
  destruct (new_ADBDevice connectionType dev) as [d|e]; [|discriminate].
  intros E; inversion E; subst. simpl.
  repeat split; try reflexivity.
  - apply orb_true_iff in Hct. exact Hct.
  - intros fuel.
    pose proof (connect_loop_order (Cmd := Cmd) fuel pv_undefined
                  (mkADB NOT_CONNECTED d)) as Ho.
    unfold connect. destruct (snd (connect_loop fuel pv_undefined _)) as [|c rest];
      [exact I|].
    simpl in Ho. apply andb_true_iff in Ho. destruct Ho as [He _].
    destruct c; simpl in He; try discriminate; reflexivity.
Qed.

End ConstructorFacts.

(** A USB object is created NOT_CONNECTED; any other type is refused. *)
Lemma new_ADB_starts_not_connected_witness :
  new_ADB "usb"%string "tcp"%string String.eqb
      (fun (_ : string) (d : Mock.Device) => Normal d) "usb"%string Scenario.trusted =
    Normal (Scenario.fresh Scenario.trusted) /\
  state (Scenario.fresh Scenario.trusted) = NOT_CONNECTED /\
  new_ADB "usb"%string "tcp"%string String.eqb
      (fun (_ : string) (d : Mock.Device) => Normal d) "serial"%string Scenario.trusted =
    Throw (Error "Cannot create new ADB device, invalid connection type.").
Proof.
  split; [reflexivity|]. split; [|reflexivity].
  apply (proj1 (proj2 (proj2
           (@new_ADB_starts_not_connected Mock.Device string Mock.Device string
              string Mock.handshake Mock.session "usb"%string "tcp"%string
              String.eqb (fun (_ : string) (d : Mock.Device) => Normal d)
              "usb"%string Scenario.trusted (Scenario.fresh Scenario.trusted)
              eq_refl)))).
Defined.

(** * Further properties of USB discovery *)

Section InterfaceSearch.
Import Usb.

Lemma search_interfaces_first (ifaces : list Interface) (iface : Interface) :
  search_interfaces ifaces = Some iface <->
  exists pre post,
    ifaces = pre ++ iface :: post /\
    is_adb_interface iface = true /\
    forall i, In i pre -> is_adb_interface i = false.
Proof.
  induction ifaces as [|x rest IH]; simpl.
  - split; [discriminate|]. intros (pre & post & E & _). destruct pre; discriminate.
  - destruct (is_adb_interface x) eqn:Hx.
    + split.
      * intros E; inversion E; subst. exists [], rest. simpl. tauto.
      * intros (pre & post & E & Ha & Hpre). destruct pre as [|y pre].
        -- simpl in E. inversion E; subst. reflexivity.
        -- simpl in E. inversion E; subst.
           rewrite (Hpre y) in Hx by (simpl; auto). discriminate.
    + rewrite IH. split.
      * intros (pre & post & E & Ha & Hpre). exists (x :: pre), post. subst rest.
        repeat split; auto. intros i [<-|Hi]; auto.
      * intros (pre & post & E & Ha & Hpre). destruct pre as [|y pre].
        -- simpl in E. inversion E; subst. congruence.
        -- simpl in E. inversion E; subst. exists pre, post.
           repeat split; auto. intros i Hi. apply Hpre. simpl. auto.
Qed.


Lemma land_768_byte (n : Z) : 0 <= n < 256 -> Z.land 768 n = 0.
Proof.
  intros Hn. apply Z.bits_inj'. intros i Hi.
  rewrite Z.land_spec, Z.bits_0.
  destruct (Z.ltb_spec i 8) as [Hlt|Hge].
  - change 768 with (3 * 2 ^ 8). rewrite Z.mul_pow2_bits_low by lia. reflexivity.
  - destruct (Z.eq_dec n 0) as [->|Hz]; [rewrite Z.bits_0; apply andb_false_r|].
    rewrite (Z.bits_above_log2 n i); [apply andb_false_r|lia|].
    apply Z.lt_le_trans with 8; [|exact Hge].
    apply Z.log2_lt_pow2; lia.
Qed.

Lemma serial_wValue (n : Z) :
  0 <= n < 256 -> js_or (js_shl LIBUSB_DT_STRING 8) n = 0x0300 + n.
Proof.
  intros Hn. change (js_shl LIBUSB_DT_STRING 8) with 768.
  unfold js_or. change (to_int32 768) with 768.
  assert (Hm : to_int32 n = n).
  { unfold to_int32. rewrite Z.mod_small by lia.
    destruct (Z.ltb_spec n (2 ^ 31)); lia. }
  rewrite Hm.
  pose proof (Z.add_lor_land 768 n) as Ha. rewrite (land_768_byte Hn) in Ha.
  assert (Hl : Z.lor 768 n = 768 + n) by lia. rewrite Hl.
  unfold to_int32. rewrite Z.mod_small by lia.
  destruct (Z.ltb_spec (768 + n) (2 ^ 31)); lia.
Qed.

Lemma byte_of_Z_to_N (z : Z) :
  Z.of_N (Byte.to_N (byte_of_Z z)) = z mod 256.
Proof.
  unfold byte_of_Z.
  assert (Hr : 0 <= z mod 256 < 256) by (apply Z.mod_pos_bound; lia).
  destruct (Byte.of_N (Z.to_N (z mod 256))) as [b|] eqn:Eb.
  - apply Byte.to_of_N in Eb. rewrite Eb. lia.
  - apply Byte.of_N_None_iff in Eb. lia.
Qed.

Lemma utf16le_bytes_decode (s : JsString) :
  Forall (fun u => 0 <= u < 65536) s ->
  utf16le (utf16le_bytes s) = s.
Proof.
  induction 1 as [|u rest Hu _ IH]; cbn [utf16le utf16le_bytes]; [reflexivity|].
  rewrite IH, !byte_of_Z_to_N. f_equal.
  rewrite (Z.mod_small (u / 256)).
  - pose proof (Z.div_mod u 256 ltac:(lia)). lia.
  - split; [apply Z.div_pos; lia|apply Z.div_lt_upper_bound; lia].
Qed.

Lemma utf16le_length (bytes : list Byte.byte) :
  List.length (utf16le bytes) = Nat.div2 (List.length bytes).
Proof.
  assert (H : forall n (l : list Byte.byte), (List.length l <= n)%nat ->
                List.length (utf16le l) = Nat.div2 (List.length l)).
  { induction n as [|n IH]; intros l Hl.
    - destruct l; [reflexivity|simpl in Hl; lia].
    - destruct l as [|lo [|hi rest]]; try reflexivity.
      simpl. f_equal. apply IH. simpl in Hl. lia. }
  apply (H (List.length bytes)). lia.
Qed.

End InterfaceSearch.

(** X11: [_getAdbInterface] returns the first interface of the device that
    has two endpoints and the ADB class, subclass and protocol, and returns
    one exactly when the device opens, its interface list and both its
    descriptors are not [null], and such an interface exists. *)
Theorem getAdbInterface_first_match (device : Usb.Device) (iface : Usb.Interface) :
  fst (Usb._getAdbInterface device) = Normal (Some iface) <->
  exists pre post,
    Usb.on_open device = Normal tt /\
    Usb.interfaces device = Some (pre ++ iface :: post) /\
    Usb.deviceDescriptor device <> None /\
    Usb.configDescriptor device <> None /\
    Usb.is_adb_interface iface = true /\
    forall i, In i pre -> Usb.is_adb_interface i = false.
Proof.
  unfold Usb._getAdbInterface. split.
  - destruct (Usb.on_open device) as [[]|e]; [|discriminate].
    destruct (Usb.interfaces device) as [ifaces|]; [|discriminate].
    destruct (Usb.deviceDescriptor device), (Usb.configDescriptor device);
      simpl; try discriminate.
    intros E. inversion E as [E']. apply search_interfaces_first in E'.
    destruct E' as (pre & post & -> & Ha & Hpre).
    exists pre, post. repeat split; auto; discriminate.
  - intros (pre & post & Ho & Hi & Hd & Hc & Ha & Hpre).
    rewrite Ho, Hi.
    destruct (Usb.deviceDescriptor device); [|congruence].
    destruct (Usb.configDescriptor device); [|congruence].
    simpl. f_equal. f_equal. apply search_interfaces_first.
    exists pre, post. auto.
Qed.

(** The phone's storage interface comes first and is passed over. *)
Lemma getAdbInterface_first_match_witness :
  fst (Usb._getAdbInterface UsbScenario.phone) =
    Normal (Some UsbScenario.adb_interface).
Proof.
  apply (proj2 (getAdbInterface_first_match UsbScenario.phone
                  UsbScenario.adb_interface)).
  exists [UsbScenario.storage_interface], [].
  repeat split; try discriminate.
  intros i [<-|[]]. reflexivity.
Defined.

(** X12: [_getSerialNo] asks an open device for string descriptor
    [iSerialNumber] (request type 0x80, GET_DESCRIPTOR, wValue 0x0300 +
    iSerialNumber, language 0x0409, 255 bytes).  It closes the device only
    when the transfer succeeded: a failed transfer is thrown and the device
    stays open. *)
Theorem getSerialNo_request_and_close
    (device : Usb.Device) (dd : Usb.DeviceDescriptor) :
  Usb.deviceDescriptor device = Some dd ->
  Usb.on_open device = Normal tt ->
  0 <= Usb.iSerialNumber dd < 256 ->
  let wValue := 0x0300 + Usb.iSerialNumber dd in
  let request := Usb.call_controlTransfer device 0x80 0x06 wValue 0x0409 255 in
  Usb._getSerialNo device =
    match Usb.controlTransfer device 0x80 0x06 wValue 0x0409 255 with
    | Normal buffer =>
        (Normal (Usb.toString_utf16le 2 buffer),
         [Usb.call_open device; request; Usb.call_close device])
    | Throw e => (Throw e, [Usb.call_open device; request])
    end.
Proof.
  intros Hd Ho Hn. unfold Usb._getSerialNo. rewrite Ho, Hd.
  rewrite (serial_wValue Hn).
  change Usb.LIBUSB_ENDPOINT_IN with 128.
  change Usb.LIBUSB_REQUEST_GET_DESCRIPTOR with 6.
  cbv zeta.
  destruct (Usb.controlTransfer device 128 6 (768 + Usb.iSerialNumber dd) 1033 255);
    reflexivity.
Qed.

Lemma getSerialNo_request_and_close_witness :
  Usb._getSerialNo UsbScenario.phone =
    (Normal [65; 66],
     [Usb.call_open UsbScenario.phone;
      Usb.call_controlTransfer UsbScenario.phone 0x80 0x06 0x0303 0x0409 255;
      Usb.call_close UsbScenario.phone]).
Proof.
  apply (@getSerialNo_request_and_close UsbScenario.phone
           (Usb.mkDeviceDescriptor 0x18d1 3));
    [reflexivity | reflexivity | simpl; lia].
Defined.

(** X13: a serial number comes back as the device holds it.  When the device
    answers the request with the string descriptor of a sequence of 16-bit
    code units, [_getSerialNo] returns that sequence: the two header bytes
    are skipped and the rest is read as UTF-16LE.  Whatever the answer, the
    string has one code unit for every two bytes after the header, an odd
    last byte being dropped. *)
Theorem getSerialNo_round_trip :
  (forall (device : Usb.Device) (dd : Usb.DeviceDescriptor) (s : Usb.JsString),
      Usb.deviceDescriptor device = Some dd ->
      Usb.on_open device = Normal tt ->
      (forall t r v i l,
          Usb.controlTransfer device t r v i l = Normal (string_descriptor s)) ->
      Forall (fun u => 0 <= u < 65536) s ->
      fst (Usb._getSerialNo device) = Normal s) /\
  (forall buffer : list Byte.byte,
      List.length (Usb.toString_utf16le 2 buffer) =
        Nat.div2 (List.length buffer - 2)).
Proof.
  split.
  - intros device dd s Hd Ho Hc Hs. unfold Usb._getSerialNo.
    rewrite Ho, Hd, Hc. simpl. f_equal.
    unfold Usb.toString_utf16le, string_descriptor. simpl.
    apply utf16le_bytes_decode. exact Hs.
  - intros buffer. unfold Usb.toString_utf16le.
    rewrite utf16le_length, length_skipn. reflexivity.
Qed.

(** The serial "R58M" held by the device is the serial read. *)
Lemma getSerialNo_round_trip_witness :
  fst (Usb._getSerialNo (UsbScenario.phone_with_serial [82; 53; 56; 77])) =
    Normal [82; 53; 56; 77].
Proof.
  apply (proj1 getSerialNo_round_trip
           (UsbScenario.phone_with_serial [82; 53; 56; 77])
           (Usb.mkDeviceDescriptor 0x18d1 3) [82; 53; 56; 77]);
    [reflexivity | reflexivity | reflexivity |].
  repeat constructor; lia.
Defined.

Section DiscoveryResults.
Import Usb.
Variable USB_VENDOR_IDS : list Z.

Local Abbreviation scan_ := (scan USB_VENDOR_IDS).

Lemma scan_sound (usbDevices : list Device) :
  forall adbDevices found,
    fst (scan_ usbDevices adbDevices) = Normal found ->
    exists new,
      found = adbDevices ++ new /\ Forall (discovered USB_VENDOR_IDS usbDevices) new.
Proof.
  induction usbDevices as [|d rest IH]; intros acc found; simpl.
  - intros E; inversion E; subst. exists []. rewrite app_nil_r. auto.
  - assert (Hmono : forall new, Forall (discovered USB_VENDOR_IDS rest) new ->
                                Forall (discovered USB_VENDOR_IDS (d :: rest)) new).
    { intros new H. eapply Forall_impl; [|exact H].
      intros x (H1 & H2). split; [simpl; auto|exact H2]. }
    destruct (deviceDescriptor d) as [dd|] eqn:Hd; [|discriminate].
    destruct (indexOf USB_VENDOR_IDS (idVendor dd) =? -1) eqn:Hi.
    + intros E. destruct (IH _ _ E) as (new & -> & Hn). eauto.
    + assert (Hal : vendor_allowed USB_VENDOR_IDS d).
      { exists dd. split; [assumption|].
        destruct (in_dec Z.eq_dec (idVendor dd) USB_VENDOR_IDS) as [Hin|Hin]; auto.
        apply indexOf_missing in Hin. congruence. }
      destruct (_getAdbInterface d) as [[[iface|]|e] calls] eqn:Eg; try discriminate.
      * destruct (_getSerialNo d) as [[sn|e] calls1] eqn:Es; try discriminate.
        destruct (scan_ rest (acc ++ [mkAdbDevice d iface sn])) as [r calls'] eqn:Er.
        simpl. intros E. subst r.
        destruct (IH (acc ++ [mkAdbDevice d iface sn]) found) as (new & -> & Hn);
          [rewrite Er; reflexivity|].
        exists (mkAdbDevice d iface sn :: new). rewrite <- app_assoc. split; [reflexivity|].
        constructor; [|auto].
        repeat split; simpl; auto; [rewrite Eg|rewrite Es]; reflexivity.
      * destruct (scan_ rest acc) as [r calls'] eqn:Er. simpl. intros E. subst r.
        destruct (IH acc found) as (new & -> & Hn); [rewrite Er; reflexivity|].
        eauto.
Qed.



End DiscoveryResults.

(** X14: every entry [findAdbDevices] returns is a device of the list with
    an allowed vendor id, together with the interface [_getAdbInterface]
    gave for it, which is an ADB interface, and the serial number
    [_getSerialNo] read from it; and the array returned is never empty. *)
Theorem findAdbDevices_sound
    (USB_VENDOR_IDS : list Z) (usbDevices : list Usb.Device)
    (found : list Usb.AdbDevice) :
  fst (Usb.findAdbDevices USB_VENDOR_IDS usbDevices) = Normal found ->
  found <> [] /\
  Forall (discovered USB_VENDOR_IDS usbDevices) found /\
  Forall (fun entry => Usb.is_adb_interface (Usb.deviceInterface entry) = true)
    found.
Proof.
  unfold Usb.findAdbDevices.
  destruct (Z.of_nat (List.length usbDevices) =? 0); [discriminate|].
  pose proof (@scan_sound USB_VENDOR_IDS usbDevices []) as Hs.
  destruct (Usb.scan USB_VENDOR_IDS usbDevices []) as [[l|e] calls];
    [|discriminate].
  destruct (Z.eqb_spec (Z.of_nat (List.length l)) 0) as [Hz|Hz]; [discriminate|].
  simpl. intros E; inversion E; subst l.
  destruct (Hs found eq_refl) as (new & Hn & Hf). simpl in Hn. subst new.
  split; [intros ->; simpl in Hz; lia|]. split; [exact Hf|].
  eapply Forall_impl; [|exact Hf].
  intros entry (_ & _ & Hi & _).
  destruct (@getAdbInterface_some _ _ Hi) as (ifaces & _ & _ & Ha). exact Ha.
Qed.

Lemma findAdbDevices_sound_witness :
  fst (Usb.findAdbDevices UsbScenario.vendor_ids
         [UsbScenario.keyboard; UsbScenario.phone]) =
    Normal [Usb.mkAdbDevice UsbScenario.phone UsbScenario.adb_interface [65; 66]] /\
  Forall (discovered UsbScenario.vendor_ids [UsbScenario.keyboard; UsbScenario.phone])
    [Usb.mkAdbDevice UsbScenario.phone UsbScenario.adb_interface [65; 66]].
Proof.
  split; [reflexivity|].
  apply (proj1 (proj2 (@findAdbDevices_sound UsbScenario.vendor_ids
                         [UsbScenario.keyboard; UsbScenario.phone]
                         [Usb.mkAdbDevice UsbScenario.phone
                            UsbScenario.adb_interface [65; 66]]
                         eq_refl))).
Defined.




